(** * ReWear: listing exchange and points accounting of [src/App.js]

    A shallow embedding of the parts of the React client that read or write
    the Firestore collections [artifacts/<appId>/users] and
    [artifacts/<appId>/public/data/items]: profile creation, the item
    detail page (swap request and point redemption), the add-item form and
    the admin panel.  Component state is passed explicitly; every event
    handler of the source is a function on the [World]. *)

From stdpp Require Import gmap strings list pretty.
From Stdlib Require Import ZArith Lia Ascii.

Open Scope Z_scope.

(** ** The JavaScript fragment the handlers rely on *)

Module Js.

(** The values a numeric document field can hold.  Numbers are the
    integers, without bound: up to 2^53 in absolute value these are the
    JavaScript numbers [parseInt] produces, and the code writes no other
    number.  Beyond 2^53 a JavaScript number is rounded, and [Infinity]
    past the largest double: neither is modelled, nor is the sign of
    zero, so a statement about a number read from text is kept within
    2^53. *)
Inductive value :=
| Undefined
| Null
| NaN
| Number (n : Z).

Global Instance value_eq_dec : EqDecision value.
Proof. solve_decision. Defined.

(** [ToBoolean]: what [if (v)], [!v] and [v ? a : b] test. *)
Definition truthy (v : value) : bool :=
  match v with
  | Undefined | Null | NaN => false
  | Number n => negb (n =? 0)
  end.

(** [ToBoolean] of a string: only the empty string is falsy. *)
Definition truthy_string (s : string) : bool :=
  match s with
  | EmptyString => false
  | String _ _ => true
  end.

(** [ToBoolean] of a possibly-null string ([null] is [None]). *)
Definition truthy_ref (s : option string) : bool :=
  match s with
  | None => false
  | Some s => truthy_string s
  end.

(** [ToNumber]; [None] stands for [NaN]. *)
Definition to_number (v : value) : option Z :=
  match v with
  | Undefined | NaN => None
  | Null => Some 0
  | Number n => Some n
  end.

(** [a < b] on numeric operands: false as soon as one side is [NaN]. *)
Definition lt (a b : value) : bool :=
  match to_number a, to_number b with
  | Some x, Some y => x <? y
  | _, _ => false
  end.

(** [ToString], as a template literal applies it. *)
Definition to_string (v : value) : string :=
  match v with
  | Undefined => "undefined"
  | Null => "null"
  | NaN => "NaN"
  | Number n => pretty n
  end.

(** [s.trimStart()] and [s.trim()].  A string is the sequence of its
    UTF-8 bytes; the white space removed is that of ASCII (tab, LF, VT,
    FF, CR, space).  JavaScript also removes the white space outside
    ASCII (the no-break space, U+FEFF, the Unicode space separators and
    the line separators U+2028 and U+2029), so the two agree on the
    strings that are [ascii_only] below, and a statement about what is
    trimmed is kept to those. *)
Fixpoint trim_start (s : string) : string :=
  match s with
  | String c s' => if Ascii.is_space c then trim_start s' else s
  | EmptyString => EmptyString
  end.

Definition trim (s : string) : string :=
  String.rev (trim_start (String.rev (trim_start s))).

(** The longest prefix of decimal digits, read as a number. [acc] is the
    value of the digits consumed so far, [seen] whether there was one.
    The value is the exact integer, which is the JavaScript number as long
    as it is within 2^53. *)
Fixpoint digits (s : string) (acc : Z) (seen : bool) : value :=
  match s with
  | String c s' =>
      match Ascii.is_nat c with
      | Some d => digits s' (10 * acc + Z.of_nat d) true
      | None => if seen then Number acc else NaN
      end
  | EmptyString => if seen then Number acc else NaN
  end.

Definition negate (v : value) : value :=
  match v with
  | Number n => Number (- n)
  | _ => v
  end.

(** [parseInt(s, 10)]: leading white space is skipped, one sign is
    accepted, then the longest run of digits is read; no digit gives
    [NaN]. Whatever follows the digits is ignored.  It agrees with the
    JavaScript function where [trim_start] and [digits] do: on a string
    whose leading white space is ASCII and whose digits denote an integer
    within 2^53. *)
Definition parseInt10 (s : string) : value :=
  match trim_start s with
  | String "-"%char s' => negate (digits s' 0 false)
  | String "+"%char s' => digits s' 0 false
  | s' => digits s' 0 false
  end.

(** [s.split(',')]; [cur] is the piece being read, reversed. *)
Fixpoint split_comma_go (s : string) (cur : string) : list string :=
  match s with
  | String ","%char s' => String.rev cur :: split_comma_go s' EmptyString
  | String c s' => split_comma_go s' (String c cur)
  | EmptyString => [String.rev cur]
  end.

Definition split_comma (s : string) : list string :=
  split_comma_go s EmptyString.

(** [s.includes(sub)]. *)
Fixpoint includes (s sub : string) : bool :=
  String.prefix sub s ||
  match s with
  | String _ s' => includes s' sub
  | EmptyString => false
  end.

End Js.

(** ** The hosted document store *)

Module Firestore.

(** A document of [artifacts/<appId>/users]. Both writers of the source
    store exactly these three fields; [email] is [null] for a user
    without one. *)
Record UserDoc := mkUser {
  email : option string;
  points : Z;
  memberSince : string
}.

(** A document of [artifacts/<appId>/public/data/items]. A field is
    [None] ([Js.Undefined] for [pointsValue]) when the document lacks it,
    which happens when [setDoc(..., {merge: true})] creates it. *)
Record ItemDoc := mkItem {
  userId : option string;
  title : option string;
  description : option string;
  category : option string;
  type : option string;
  size : option string;
  condition : option string;
  tags : option (list string);
  pointsValue : Js.value;
  images : option (list string);
  status : option string;
  createdAt : option string
}.

Definition no_fields : ItemDoc :=
  mkItem None None None None None None None None Js.Undefined None None None.

Record Db := mkDb {
  users : gmap string UserDoc;
  items : gmap string ItemDoc
}.

(** What a rejected call throws. *)
Record Error := mkError { code : string; message : string }.

(** How the backend answers one call. *)
Inductive reply :=
| Resolved
| Rejected (e : Error).

(** [getDoc]: the snapshot, [None] when [exists()] is false. *)
Definition getUser (uid : string) (d : Db) : option UserDoc := users d !! uid.
Definition getItem (id : string) (d : Db) : option ItemDoc := items d !! id.

(** [setDoc(userDocRef, u, {merge: true})]: [u] carries every field of a
    user document, so merging it is storing it. *)
Definition setUser (uid : string) (u : UserDoc) (d : Db) : Db :=
  mkDb (<[uid := u]> (users d)) (items d).

Definition with_status (s : string) (i : ItemDoc) : ItemDoc :=
  mkItem (userId i) (title i) (description i) (category i) (type i)
         (size i) (condition i) (tags i) (pointsValue i) (images i)
         (Some s) (createdAt i).

(** [setDoc(itemDocRef, {status: s}, {merge: true})]: the other fields
    of an existing document are kept; a missing document is created with
    the [status] field alone. *)
Definition mergeItemStatus (id : string) (s : string) (d : Db) : Db :=
  mkDb (users d)
       (<[id := with_status s (default no_fields (items d !! id))]> (items d)).

(** [addDoc(itemsCollectionRef, i)], [id] being the identifier the
    backend generates. *)
Definition addItem (id : string) (i : ItemDoc) (d : Db) : Db :=
  mkDb (users d) (<[id := i]> (items d)).

(** [deleteDoc(doc(db, users, uid))]. *)
Definition deleteUser (uid : string) (d : Db) : Db :=
  mkDb (delete uid (users d)) (items d).

(** [getDocs(collection)] mapped to [{id: doc.id, ...doc.data()}]. *)
Definition allUsers (d : Db) : list (string * UserDoc) := map_to_list (users d).
Definition allItems (d : Db) : list (string * ItemDoc) := map_to_list (items d).

Definition empty : Db := mkDb ∅ ∅.

End Firestore.

(** [error.code === 'permission-denied' ||
     error.message.includes('Missing or insufficient permissions')] *)
Definition permission_denied (e : Firestore.Error) : bool :=
  bool_decide (Firestore.code e = "permission-denied")
  || Js.includes (Firestore.message e) "Missing or insufficient permissions".

(** A line break, and [n] blanks: the notices below are template literals
    that run over several source lines and keep their indentation. *)
Definition newline : string := String "010"%char "".

Fixpoint spaces (n : nat) : string :=
  match n with
  | O => ""
  | S n => String " "%char (spaces n)
  end.

(** The notice shown on a permission error. [what] is the activity the
    call site names ([list items], [view item details], ...), [col] the
    column at which the lines of the literal start at that call site. *)
Definition permission_notice (what : string) (col : nat) : string :=
  String.concat newline
    [ "Permission Denied: To " +:+ what +:+ ", please update your Firestore Security Rules.";
      spaces col +:+ "Go to Firebase Console > Firestore Database > Rules tab and add the following rules:";
      "";
      spaces col +:+ "rules_version = '2';";
      spaces col +:+ "service cloud.firestore {";
      spaces (col + 2) +:+ "match /databases/{database}/documents {";
      spaces (col + 4) +:+ "match /artifacts/{appId}/public/data/items/{document=**} {";
      spaces (col + 6) +:+ "allow read, write: if request.auth != null;";
      spaces (col + 4) +:+ "}";
      spaces (col + 4) +:+ "match /artifacts/{appId}/users/{userId}/{document=**} {";
      spaces (col + 6) +:+ "allow read, write: if request.auth != null && request.auth.uid == userId;";
      spaces (col + 4) +:+ "}";
      spaces (col + 2) +:+ "}";
      spaces col +:+ "}" ].

(** ** Component state *)

(** The content of the message box: [{ message, type }]. *)
Module Notice.
Record t := mk { message : string; type : string }.

Global Instance eq_dec : EqDecision t.
Proof. solve_decision. Defined.
End Notice.

(** The signed-in user as the identity provider reports it. *)
Module Auth.
Record User := mkUser { uid : string; email : option string }.
End Auth.

(** [App]: the [useState] cells of the root component. *)
Module App.
Record State := mk {
  currentPage : string;
  selectedItemId : option string;
  userId : option string;
  isAuthReady : bool;
  messageBox : option Notice.t
}.

Definition initial : State := mk "landing" None None false None.

Definition setCurrentPage (p : string) (s : State) : State :=
  mk p (selectedItemId s) (userId s) (isAuthReady s) (messageBox s).
Definition setSelectedItemId (i : option string) (s : State) : State :=
  mk (currentPage s) i (userId s) (isAuthReady s) (messageBox s).
Definition setUserId (u : option string) (s : State) : State :=
  mk (currentPage s) (selectedItemId s) u (isAuthReady s) (messageBox s).
Definition setIsAuthReady (b : bool) (s : State) : State :=
  mk (currentPage s) (selectedItemId s) (userId s) b (messageBox s).
Definition setMessageBox (m : option Notice.t) (s : State) : State :=
  mk (currentPage s) (selectedItemId s) (userId s) (isAuthReady s) m.
End App.

(** [ItemDetailPage]; [item] is the snapshot [{id, ...data}] read when the
    page was opened. *)
Module ItemDetail.
Record State := mk {
  item : option (string * Firestore.ItemDoc);
  uploader : option Firestore.UserDoc;
  loading : bool;
  showConfirmSwap : bool;
  showConfirmRedeem : bool
}.

Definition initial : State := mk None None true false false.

Definition setItem (i : option (string * Firestore.ItemDoc)) (s : State) : State :=
  mk i (uploader s) (loading s) (showConfirmSwap s) (showConfirmRedeem s).
Definition setUploader (u : option Firestore.UserDoc) (s : State) : State :=
  mk (item s) u (loading s) (showConfirmSwap s) (showConfirmRedeem s).
Definition setLoading (b : bool) (s : State) : State :=
  mk (item s) (uploader s) b (showConfirmSwap s) (showConfirmRedeem s).
Definition setShowConfirmSwap (b : bool) (s : State) : State :=
  mk (item s) (uploader s) (loading s) b (showConfirmRedeem s).
Definition setShowConfirmRedeem (b : bool) (s : State) : State :=
  mk (item s) (uploader s) (loading s) (showConfirmSwap s) b.
End ItemDetail.

(** [AddItemPage]: the form fields are the strings typed so far, [images]
    the object URLs of the files chosen. *)
Module AddItem.
Record State := mk {
  title : string;
  description : string;
  category : string;
  type : string;
  size : string;
  condition : string;
  tags : string;
  pointsValue : string;
  images : list string;
  loading : bool
}.

Definition initial : State := mk "" "" "" "" "" "" "" "" [] false.

Inductive field :=
| OnTitle | OnDescription | OnCategory | OnType | OnSize | OnCondition | OnTags
| OnPointsValue.

(** The [onChange] of a form control: [setTitle(e.target.value)], ... *)
Definition setField (f : field) (v : string) (s : State) : State :=
  match f with
  | OnTitle => mk v (description s) (category s) (type s) (size s) (condition s) (tags s) (pointsValue s) (images s) (loading s)
  | OnDescription => mk (title s) v (category s) (type s) (size s) (condition s) (tags s) (pointsValue s) (images s) (loading s)
  | OnCategory => mk (title s) (description s) v (type s) (size s) (condition s) (tags s) (pointsValue s) (images s) (loading s)
  | OnType => mk (title s) (description s) (category s) v (size s) (condition s) (tags s) (pointsValue s) (images s) (loading s)
  | OnSize => mk (title s) (description s) (category s) (type s) v (condition s) (tags s) (pointsValue s) (images s) (loading s)
  | OnCondition => mk (title s) (description s) (category s) (type s) (size s) v (tags s) (pointsValue s) (images s) (loading s)
  | OnTags => mk (title s) (description s) (category s) (type s) (size s) (condition s) v (pointsValue s) (images s) (loading s)
  | OnPointsValue => mk (title s) (description s) (category s) (type s) (size s) (condition s) (tags s) v (images s) (loading s)
  end.

Definition setImages (f : list string -> list string) (s : State) : State :=
  mk (title s) (description s) (category s) (type s) (size s) (condition s)
     (tags s) (pointsValue s) (f (images s)) (loading s).
Definition setLoading (b : bool) (s : State) : State :=
  mk (title s) (description s) (category s) (type s) (size s) (condition s)
     (tags s) (pointsValue s) (images s) b.
End AddItem.

(** [UserDashboardPage]: only the profile cell is kept; the listing query
    of the page reads the store and writes nothing. *)
Module Dashboard.
Record State := mk { userProfile : option Firestore.UserDoc }.
Definition initial : State := mk None.
End Dashboard.

(** [AdminPanelPage]. *)
Module Admin.
Record State := mk {
  users : list (string * Firestore.UserDoc);
  listings : list (string * Firestore.ItemDoc);
  activeTab : string;
  loading : bool
}.

Definition initial : State := mk [] [] "users" true.

Definition setUsers (f : list (string * Firestore.UserDoc) -> list (string * Firestore.UserDoc)) (s : State) : State :=
  mk (f (users s)) (listings s) (activeTab s) (loading s).
Definition setListings (l : list (string * Firestore.ItemDoc)) (s : State) : State :=
  mk (users s) l (activeTab s) (loading s).
Definition setActiveTab (t : string) (s : State) : State :=
  mk (users s) (listings s) t (loading s).
Definition setLoading (b : bool) (s : State) : State :=
  mk (users s) (listings s) (activeTab s) b.
End Admin.

(** Everything an event handler can read or write: the store, the identity
    provider's current user ([auth.currentUser]) and the state of [App]
    and of its pages. *)
Record World := mkWorld {
  db : Firestore.Db;
  currentUser : option Auth.User;
  app : App.State;
  detail : ItemDetail.State;
  addItem : AddItem.State;
  dashboard : Dashboard.State;
  admin : Admin.State
}.

Definition initial_world : World :=
  mkWorld Firestore.empty None App.initial ItemDetail.initial AddItem.initial
          Dashboard.initial Admin.initial.

Definition on_db (f : Firestore.Db -> Firestore.Db) (w : World) : World :=
  mkWorld (f (db w)) (currentUser w) (app w) (detail w) (addItem w) (dashboard w) (admin w).
Definition on_currentUser (u : option Auth.User) (w : World) : World :=
  mkWorld (db w) u (app w) (detail w) (addItem w) (dashboard w) (admin w).
Definition on_app (f : App.State -> App.State) (w : World) : World :=
  mkWorld (db w) (currentUser w) (f (app w)) (detail w) (addItem w) (dashboard w) (admin w).
Definition on_detail (f : ItemDetail.State -> ItemDetail.State) (w : World) : World :=
  mkWorld (db w) (currentUser w) (app w) (f (detail w)) (addItem w) (dashboard w) (admin w).
Definition on_addItem (f : AddItem.State -> AddItem.State) (w : World) : World :=
  mkWorld (db w) (currentUser w) (app w) (detail w) (f (addItem w)) (dashboard w) (admin w).
Definition on_dashboard (f : Dashboard.State -> Dashboard.State) (w : World) : World :=
  mkWorld (db w) (currentUser w) (app w) (detail w) (addItem w) (f (dashboard w)) (admin w).
Definition on_admin (f : Admin.State -> Admin.State) (w : World) : World :=
  mkWorld (db w) (currentUser w) (app w) (detail w) (addItem w) (dashboard w) (f (admin w)).

(** Statements of a handler read top to bottom: [w |> f |> g]. *)
Notation "w |> f" := (f w) (at level 45, left associativity, only parsing).

(** ** [App] *)

(** [showMessageBox(message, type)]: the box holds the latest notice. *)
Definition showMessageBox (message type : string) : World -> World :=
  on_app (App.setMessageBox (Some (Notice.mk message type))).

(** The [onClose] of the message box: [setMessageBox(null)]. *)
Definition closeMessageBox : World -> World :=
  on_app (App.setMessageBox None).

(** [renderPage] shows another page component when [currentPage] changes;
    React then drops the state of the page left and starts the page
    entered from its [useState] defaults. *)
Definition mount (page : string) (w : World) : World :=
  if bool_decide (page = App.currentPage (app w)) then w
  else mkWorld (db w) (currentUser w) (app w) ItemDetail.initial
               AddItem.initial Dashboard.initial Admin.initial.

(** [handleNavigate(page, params)]; [itemId] is [params.itemId]. *)
Definition handleNavigate (page : string) (itemId : option string) (w : World) : World :=
  w |> mount page
    |> on_app (App.setCurrentPage page)
    |> on_app (App.setSelectedItemId
                 (if bool_decide (page = "itemDetail") && Js.truthy_ref itemId
                  then itemId else None)).

(** The callback given to [onAuthStateChanged]. [r_get] answers the
    [getDoc] of the profile, [r_set] the [setDoc] that creates it (its
    promise is dropped, so a rejection shows nothing); [today] is
    [new Date().toLocaleDateString()]. *)
Definition onAuthStateChanged (user : option Auth.User) (today : string)
    (r_get r_set : Firestore.reply) (w : World) : World :=
  let w := on_currentUser user w in
  match user with
  | Some u =>
      let w := on_app (App.setUserId (Some (Auth.uid u))) w in
      let w :=
        match r_get with
        | Firestore.Resolved =>
            match Firestore.getUser (Auth.uid u) (db w), r_set with
            | None, Firestore.Resolved =>
                on_db (Firestore.setUser (Auth.uid u)
                         (Firestore.mkUser
                            (if Js.truthy_ref (Auth.email u) then Auth.email u
                             else Some "anonymous@rewear.com")
                            0 today)) w
            | _, _ => w
            end
        | Firestore.Rejected e =>
            if permission_denied e
            then showMessageBox (permission_notice "manage user profiles" 14) "error" w
            else w
        end in
      on_app (App.setIsAuthReady true) w
  | None =>
      w |> on_app (App.setUserId None) |> on_app (App.setIsAuthReady true)
  end.

(** ** [UserDashboardPage] *)

(** The [onSnapshot] callback on the user's own profile: a missing profile
    is created. Reading [auth.currentUser.email] with nobody signed in
    throws, and nothing is written. *)
Definition onUserSnapshot (today : string) (r_set : Firestore.reply) (w : World) : World :=
  match App.userId (app w) with
  | Some uid =>
      if negb (Js.truthy_string uid) then w
      else
        match Firestore.getUser uid (db w) with
        | Some u => on_dashboard (fun _ => Dashboard.mk (Some u)) w
        | None =>
            match currentUser w with
            | Some cu =>
                let profile := Firestore.mkUser (Auth.email cu) 0 today in
                w |> (match r_set with
                      | Firestore.Resolved => on_db (Firestore.setUser uid profile)
                      | Firestore.Rejected _ => fun w => w
                      end)
                  |> on_dashboard (fun _ => Dashboard.mk (Some profile))
            | None => w
            end
        end
  | None => w
  end.

(** ** [ItemDetailPage] *)

(** [currentUserId === item.userId]: the left operand is a string or
    [null], the right one a string or [undefined] (a document without the
    field); only two equal strings are strictly equal. *)
Definition same_user (a b : option string) : bool :=
  match a, b with
  | Some x, Some y => bool_decide (x = y)
  | _, _ => false
  end.

(** What reading a property of [null] or [undefined] throws; the wording is
    the JavaScript engine's (V8 here), and an object without [code]. *)
Definition type_error (of_what property : string) : Firestore.Error :=
  Firestore.mkError ""
    ("Cannot read properties of " +:+ of_what +:+ " (reading '" +:+ property +:+ "')").

(** The [catch] of [fetchItemDetails]. *)
Definition fetchItemDetails_failed (e : Firestore.Error) : World -> World :=
  if permission_denied e
  then showMessageBox (permission_notice "view item details" 12) "error"
  else showMessageBox ("Error loading item details: " +:+ Firestore.message e) "error".

(** The effect of the page ([if (itemId) fetchItemDetails()]); [r_item]
    and [r_uploader] answer its two [getDoc] calls. It runs when the page
    opens and again after every render of [App], whose [onNavigate] and
    [showMessage] it depends on are new functions each time: the snapshot
    in [item] is refreshed whenever a notice is shown or closed. *)
Definition fetchItemDetails (r_item r_uploader : Firestore.reply) (w : World) : World :=
  match App.selectedItemId (app w) with
  | Some itemId =>
      if negb (Js.truthy_string itemId) then w
      else
        w |> on_detail (ItemDetail.setLoading true)
          |> (match r_item with
              | Firestore.Rejected e => fetchItemDetails_failed e
              | Firestore.Resolved =>
                  match Firestore.getItem itemId (db w) with
                  | Some itemData =>
                      fun w =>
                        w |> on_detail (ItemDetail.setItem (Some (itemId, itemData)))
                          |> (match Firestore.userId itemData, r_uploader with
                              | None, _ =>
                                  fetchItemDetails_failed (type_error "undefined" "indexOf")
                              | Some _, Firestore.Rejected e =>
                                  fetchItemDetails_failed e
                              | Some owner, Firestore.Resolved =>
                                  match Firestore.getUser owner (db w) with
                                  | Some u => on_detail (ItemDetail.setUploader (Some u))
                                  | None => fun w => w
                                  end
                              end)
                  | None =>
                      fun w =>
                        w |> showMessageBox "Item not found." "error"
                          |> handleNavigate "browse" None
                  end
              end)
          |> on_detail (ItemDetail.setLoading false)
  | None => w
  end.

(** [handleSwapRequest]. With [item] still [null] the read of
    [item.userId] throws and the handler ends there. *)
Definition handleSwapRequest (w : World) : World :=
  let currentUserId := App.userId (app w) in
  if negb (Js.truthy_ref currentUserId) then
    w |> showMessageBox "Please log in to request a swap." "info"
      |> handleNavigate "auth" None
  else
    match ItemDetail.item (detail w) with
    | Some (_, item) =>
        if same_user currentUserId (Firestore.userId item) then
          w |> showMessageBox "You cannot swap your own item." "info"
        else
          w |> on_detail (ItemDetail.setShowConfirmSwap true)
    | None => w
    end.

(** [confirmSwap]: nothing is written; the [try] holds the notice only. *)
Definition confirmSwap (w : World) : World :=
  w |> on_detail (ItemDetail.setShowConfirmSwap false)
    |> on_detail (ItemDetail.setLoading true)
    |> showMessageBox "Swap request sent successfully! The item owner will be notified." "success"
    |> on_detail (ItemDetail.setLoading false).

(** [handleRedeemPoints]; [r] answers the [getDoc] of the redeemer's
    profile. The call is outside any [try]: when it is rejected the handler
    ends without a notice. *)
Definition handleRedeemPoints (r : Firestore.reply) (w : World) : World :=
  let currentUserId := App.userId (app w) in
  if negb (Js.truthy_ref currentUserId) then
    w |> showMessageBox "Please log in to redeem points." "info"
      |> handleNavigate "auth" None
  else
    match currentUserId, ItemDetail.item (detail w) with
    | Some uid, Some (_, item) =>
        if same_user currentUserId (Firestore.userId item) then
          w |> showMessageBox "You cannot redeem points for your own item." "info"
        else if negb (Js.truthy (Firestore.pointsValue item)) then
          w |> showMessageBox "This item is not available for point redemption." "info"
        else
          match r with
          | Firestore.Resolved =>
              match Firestore.getUser uid (db w) with
              | Some userSnap =>
                  if Js.lt (Js.Number (Firestore.points userSnap)) (Firestore.pointsValue item)
                  then w |> showMessageBox "Not enough points to redeem this item." "error"
                  else w |> on_detail (ItemDetail.setShowConfirmRedeem true)
              | None =>
                  w |> showMessageBox "Not enough points to redeem this item." "error"
              end
          | Firestore.Rejected _ => w
          end
    | _, _ => w
    end.

(** [confirmRedeem]. The two [updateDoc] calls of the source (debit of the
    redeemer, [status: 'redeemed'] on the item) are commented out there, so
    the [try] holds the notice only. *)
Definition confirmRedeem (w : World) : World :=
  w |> on_detail (ItemDetail.setShowConfirmRedeem false)
    |> on_detail (ItemDetail.setLoading true)
    |> (match ItemDetail.item (detail w) with
        | Some (_, item) =>
            showMessageBox ("Successfully redeemed "
                            +:+ Js.to_string (Firestore.pointsValue item)
                            +:+ " points for this item!") "success"
        | None =>
            showMessageBox ("Failed to redeem item: "
                            +:+ Firestore.message (type_error "null" "pointsValue")) "error"
        end)
    |> on_detail (ItemDetail.setLoading false).

(** What the page renders once loaded: the two action buttons, shown to a
    visitor who is not the owner while the item is [available], the second
    one only for an item with a points value. *)
Definition isOwner (w : World) (item : Firestore.ItemDoc) : bool :=
  same_user (App.userId (app w)) (Firestore.userId item).

Definition loaded_item (w : World) : option Firestore.ItemDoc :=
  if ItemDetail.loading (detail w) then None
  else snd <$> ItemDetail.item (detail w).

Definition swap_button (w : World) : bool :=
  match loaded_item w with
  | Some item =>
      negb (isOwner w item) && bool_decide (Firestore.status item = Some "available")
  | None => false
  end.

Definition redeem_button (w : World) : bool :=
  match loaded_item w with
  | Some item => swap_button w && Js.truthy (Firestore.pointsValue item)
  | None => false
  end.

(** ** [AddItemPage] *)

(** [l.filter((_, index) => keep(index))], [i] being the index of the head. *)
Fixpoint filter_index {A} (keep : nat -> bool) (l : list A) (i : nat) : list A :=
  match l with
  | [] => []
  | x :: l' =>
      if keep i then x :: filter_index keep l' (S i)
      else filter_index keep l' (S i)
  end.

(** [handleImageUpload]; [urls] lists [URL.createObjectURL(file)] for the
    files of the selection, in order, so [files.length] is its length. *)
Definition handleImageUpload (urls : list string) (w : World) : World :=
  if (5 <? length urls + length (AddItem.images (addItem w)))%nat then
    w |> showMessageBox "You can upload a maximum of 5 images." "error"
  else
    w |> on_addItem (AddItem.setImages (fun prevImages => prevImages ++ urls)).

(** [handleRemoveImage]. *)
Definition handleRemoveImage (indexToRemove : nat) (w : World) : World :=
  w |> on_addItem (AddItem.setImages (fun prevImages =>
         filter_index (fun index => negb (index =? indexToRemove)%nat) prevImages 0)).

(** The [newItem] object of [handleSubmit]; [now] is
    [new Date().toISOString()]. *)
Definition newItem (currentUserId : string) (now : string) (f : AddItem.State) : Firestore.ItemDoc :=
  Firestore.mkItem
    (Some currentUserId)
    (Some (AddItem.title f))
    (Some (AddItem.description f))
    (Some (AddItem.category f))
    (Some (AddItem.type f))
    (Some (AddItem.size f))
    (Some (AddItem.condition f))
    (Some (filter (fun tag => tag <> "") (Js.trim <$> Js.split_comma (AddItem.tags f))))
    (if Js.truthy_string (AddItem.pointsValue f)
     then Js.parseInt10 (AddItem.pointsValue f) else Js.Null)
    (Some (AddItem.images f))
    (Some "available")
    (Some now).

(** [handleSubmit]; [id] is the identifier [addDoc] generates and [r] its
    answer. *)
Definition handleSubmit (id now : string) (r : Firestore.reply) (w : World) : World :=
  match App.userId (app w) with
  | Some currentUserId =>
      if negb (Js.truthy_string currentUserId) then
        w |> showMessageBox "You must be logged in to list an item." "error"
          |> handleNavigate "auth" None
      else
        w |> on_addItem (AddItem.setLoading true)
          |> (match r with
              | Firestore.Resolved =>
                  fun w =>
                    w |> on_db (Firestore.addItem id (newItem currentUserId now (addItem w)))
                      |> showMessageBox "Item listed successfully!" "success"
                      |> handleNavigate "dashboard" None
              | Firestore.Rejected e =>
                  if permission_denied e
                  then showMessageBox (permission_notice "list items" 10) "error"
                  else showMessageBox ("Failed to list item: " +:+ Firestore.message e) "error"
              end)
          |> on_addItem (AddItem.setLoading false)
  | None =>
      w |> showMessageBox "You must be logged in to list an item." "error"
        |> handleNavigate "auth" None
  end.

(** ** [AdminPanelPage] *)

(** The effect run when the panel opens: only the users are fetched. *)
Definition fetchData (r : Firestore.reply) (w : World) : World :=
  w |> on_admin (Admin.setLoading true)
    |> (match r with
        | Firestore.Resolved =>
            fun w => on_admin (Admin.setUsers (fun _ => Firestore.allUsers (db w))) w
        | Firestore.Rejected e =>
            if permission_denied e
            then showMessageBox (permission_notice "access admin data" 12) "error"
            else showMessageBox ("Error loading admin data: " +:+ Firestore.message e) "error"
        end)
    |> on_admin (Admin.setLoading false).

(** The status [handleModerateListing] writes, and the word of its notice:
    every action other than ['approve'] rejects. *)
Definition moderated_status (action : string) : string :=
  if bool_decide (action = "approve") then "available" else "rejected".

Definition moderated_word (action : string) : string :=
  if bool_decide (action = "approve") then "approved" else "rejected".

Definition moderate_failed (e : Firestore.Error) : World -> World :=
  showMessageBox ("Failed to moderate listing: " +:+ Firestore.message e) "error".

(** [handleModerateListing]; [r_set] answers the [setDoc], [r_get] the
    [getDocs] that refreshes the list. *)
Definition handleModerateListing (listingId action : string)
    (r_set r_get : Firestore.reply) (w : World) : World :=
  w |> on_admin (Admin.setLoading true)
    |> (match r_set with
        | Firestore.Resolved =>
            fun w =>
              w |> on_db (Firestore.mergeItemStatus listingId (moderated_status action))
                |> showMessageBox ("Listing " +:+ listingId +:+ " "
                                   +:+ moderated_word action +:+ " successfully!") "success"
                |> (match r_get with
                    | Firestore.Resolved =>
                        fun w => on_admin (Admin.setListings (Firestore.allItems (db w))) w
                    | Firestore.Rejected e => moderate_failed e
                    end)
        | Firestore.Rejected e => moderate_failed e
        end)
    |> on_admin (Admin.setLoading false).

(** [handleDeleteUser]. *)
Definition handleDeleteUser (userIdToDelete : string) (r : Firestore.reply) (w : World) : World :=
  w |> on_admin (Admin.setLoading true)
    |> (match r with
        | Firestore.Resolved =>
            fun w =>
              w |> on_db (Firestore.deleteUser userIdToDelete)
                |> showMessageBox ("User " +:+ userIdToDelete +:+ " deleted successfully!") "success"
                |> on_admin (Admin.setUsers
                     (filter (fun user => fst user <> userIdToDelete)))
        | Firestore.Rejected e =>
            showMessageBox ("Failed to delete user: " +:+ Firestore.message e) "error"
        end)
    |> on_admin (Admin.setLoading false).

(** The buttons a row of the listings tab offers for a listing of status
    [s]: Approve unless it is ['available'], Reject unless it is
    ['rejected']. *)
Definition approve_button (item : Firestore.ItemDoc) : bool :=
  negb (bool_decide (Firestore.status item = Some "available")).

Definition reject_button (item : Firestore.ItemDoc) : bool :=
  negb (bool_decide (Firestore.status item = Some "rejected")).

(** ** Events and runs *)

(** What can happen to the application: a callback of the backend fires or
    the user operates a control. Handlers run to completion one after the
    other (the interleaving of two pending [await]s is not modelled), and
    [step] lets every handler run in every state, which is more than the
    rendered page offers. The sign-in form and the log-out button are left
    out: they reach the store only through [AuthStateChanged]. *)
Inductive Event :=
| AuthStateChanged (user : option Auth.User) (today : string)
                   (r_get r_set : Firestore.reply)
| Navigate (page : string) (itemId : option string)
| CloseMessageBox
| UserSnapshot (today : string) (r_set : Firestore.reply)
| FetchItemDetails (r_item r_uploader : Firestore.reply)
| ClickSwapRequest
| ClickConfirmSwap
| ClickCancelSwap
| ClickRedeem (r : Firestore.reply)
| ClickConfirmRedeem
| ClickCancelRedeem
| ChangeField (f : AddItem.field) (v : string)
| ImageUpload (urls : list string)
| RemoveImage (index : nat)
| Submit (id now : string) (r : Firestore.reply)
| FetchData (r : Firestore.reply)
| SelectTab (tab : string)
| Moderate (listingId action : string) (r_set r_get : Firestore.reply)
| DeleteUser (uid : string) (r : Firestore.reply).

Definition step (e : Event) (w : World) : World :=
  match e with
  | AuthStateChanged user today r_get r_set => onAuthStateChanged user today r_get r_set w
  | Navigate page itemId => handleNavigate page itemId w
  | CloseMessageBox => closeMessageBox w
  | UserSnapshot today r_set => onUserSnapshot today r_set w
  | FetchItemDetails r_item r_uploader => fetchItemDetails r_item r_uploader w
  | ClickSwapRequest => handleSwapRequest w
  | ClickConfirmSwap => confirmSwap w
  | ClickCancelSwap => on_detail (ItemDetail.setShowConfirmSwap false) w
  | ClickRedeem r => handleRedeemPoints r w
  | ClickConfirmRedeem => confirmRedeem w
  | ClickCancelRedeem => on_detail (ItemDetail.setShowConfirmRedeem false) w
  | ChangeField f v => on_addItem (AddItem.setField f v) w
  | ImageUpload urls => handleImageUpload urls w
  | RemoveImage index => handleRemoveImage index w
  | Submit id now r => handleSubmit id now r w
  | FetchData r => fetchData r w
  | SelectTab tab => on_admin (Admin.setActiveTab tab) w
  | Moderate listingId action r_set r_get => handleModerateListing listingId action r_set r_get w
  | DeleteUser uid r => handleDeleteUser uid r w
  end.

Fixpoint run (es : list Event) (w : World) : World :=
  match es with
  | [] => w
  | e :: es' => run es' (step e w)
  end.

(** ** The two exchange operations, as the page offers them *)

(** [redeem]: the visitor presses "Redeem via Points" and, when the
    confirmation opens, "Confirm". *)
Definition redeem (r : Firestore.reply) (w : World) : World :=
  let w1 := handleRedeemPoints r w in
  if ItemDetail.showConfirmRedeem (detail w1) then confirmRedeem w1 else w1.

(** [requestSwap]: "Swap Request", then "Confirm" when asked. *)
Definition requestSwap (w : World) : World :=
  let w1 := handleSwapRequest w in
  if ItemDetail.showConfirmSwap (detail w1) then confirmSwap w1 else w1.

(** The page of listing [id] as the visitor [u] sees it once loaded. *)
Definition visit (u : Auth.User) (today id : string) (w : World) : World :=
  run [AuthStateChanged (Some u) today Firestore.Resolved Firestore.Resolved;
       Navigate "itemDetail" (Some id);
       FetchItemDetails Firestore.Resolved Firestore.Resolved] w.

(** The notice an operation ends with, and whether it reports success. *)
Definition notice (w : World) : option Notice.t := App.messageBox (app w).

Definition succeeded (w : World) : bool :=
  match notice w with
  | Some n => bool_decide (Notice.type n = "success")
  | None => false
  end.

(** The notices of the source that stand for the error kinds of the
    exchange ledger. *)
Definition OwnerCannotRedeemOwnListing : Notice.t :=
  Notice.mk "You cannot redeem points for your own item." "info".
Definition ListingNotRedeemable : Notice.t :=
  Notice.mk "This item is not available for point redemption." "info".
Definition InsufficientFunds : Notice.t :=
  Notice.mk "Not enough points to redeem this item." "error".
Definition SwapRequestSent : Notice.t :=
  Notice.mk "Swap request sent successfully! The item owner will be notified." "success".
Definition ItemListed : Notice.t :=
  Notice.mk "Item listed successfully!" "success".

(** What the store says about an account and a listing. *)
Definition balance (uid : string) (w : World) : option Z :=
  Firestore.points <$> Firestore.users (db w) !! uid.

Definition listing_status (id : string) (w : World) : option string :=
  Firestore.items (db w) !! id ≫= Firestore.status.

(** ** What the properties speak of *)

(** Every stored balance is non-negative. *)
Definition balances_nonneg (w : World) : Prop :=
  forall uid u, Firestore.users (db w) !! uid = Some u -> 0 <= Firestore.points u.

(** At most five images are attached to the form, and every stored listing
    that has images has at most five. *)
Definition images_within_limit (w : World) : Prop :=
  (length (AddItem.images (addItem w)) <= 5)%nat
  /\ forall id d imgs,
       Firestore.items (db w) !! id = Some d ->
       Firestore.images d = Some imgs ->
       (length imgs <= 5)%nat.

(** The status edges of section 4.2 of the specification, written from its
    words to compare [handleModerateListing] with. *)
Definition spec_edge (from to : string) : bool :=
  bool_decide ((from, to) ∈
    [("available", "pending_swap"); ("pending_swap", "swapped");
     ("pending_swap", "available"); ("available", "redeemed");
     ("available", "rejected"); ("rejected", "available")]).

(** C6 as the specification words it, for the listing [listingId] and one
    moderation of it whose calls the backend accepts: along an edge the
    status moves, off the edges the operation fails and the status stays. *)
Definition moderate_follows_spec (listingId action : string) (w : World) : Prop :=
  forall s, listing_status listingId w = Some s ->
    let w' := handleModerateListing listingId action
                Firestore.Resolved Firestore.Resolved w in
    if spec_edge s (moderated_status action)
    then listing_status listingId w' = Some (moderated_status action)
    else succeeded w' = false /\ listing_status listingId w' = Some s.

(** C9, as the specification words it: a points value is absent or a
    non-negative integer. *)
Definition absent_or_non_negative (v : Js.value) : Prop :=
  v = Js.Undefined \/ v = Js.Null \/ exists n, 0 <= n /\ v = Js.Number n.

(** ** A store and three visitors to try the operations on *)

Module Scenario.

Definition today : string := "7/12/2025".

(** Listing [L1], offered by [U1] for 100 points. *)
Definition L1 : Firestore.ItemDoc :=
  Firestore.mkItem (Some "U1") (Some "Blue Denim Jeans") (Some "Worn twice.")
    (Some "Bottoms") (Some "Jeans") (Some "M") (Some "Excellent")
    (Some ["casual"; "denim"]) (Js.Number 100) (Some [])
    (Some "available") (Some "2025-07-12T09:30:00.000Z").

(** [U1] holds 50 points, [U2] 150 and [U3] none. *)
Definition store : Firestore.Db :=
  Firestore.mkDb
    (<["U1" := Firestore.mkUser (Some "u1@rewear.com") 50 today]>
       (<["U2" := Firestore.mkUser (Some "u2@rewear.com") 150 today]>
          (<["U3" := Firestore.mkUser (Some "u3@rewear.com") 0 today]> ∅)))
    (<["L1" := L1]> ∅).

Definition U1 : Auth.User := Auth.mkUser "U1" (Some "u1@rewear.com").
Definition U2 : Auth.User := Auth.mkUser "U2" (Some "u2@rewear.com").
Definition U3 : Auth.User := Auth.mkUser "U3" (Some "u3@rewear.com").

(** A browser freshly started on the store [d]. *)
Definition browser (d : Firestore.Db) : World :=
  on_db (fun _ => d) initial_world.

(** [u] has opened the page of [L1]. *)
Definition at_L1 (u : Auth.User) (d : Firestore.Db) : World :=
  visit u today "L1" (browser d).

(** The same store with another [status] on [L1]. *)
Definition store_with_status (s : string) : Firestore.Db :=
  Firestore.mkDb (Firestore.users store)
                 (<["L1" := Firestore.with_status s L1]> ∅).

(** [U1] looks at its own listing, [U2] and [U3] at [U1]'s. *)
Definition owner_view : World := at_L1 U1 store.
Definition rich_view : World := at_L1 U2 store.
Definition poor_view : World := at_L1 U3 store.

(** [U2] has redeemed [L1] once and closed the notice; the page has
    read the listing again after the notice was shown and after it was
    closed. *)
Definition after_one_redeem : World :=
  run [FetchItemDetails Firestore.Resolved Firestore.Resolved;
       CloseMessageBox;
       FetchItemDetails Firestore.Resolved Firestore.Resolved]
      (redeem Firestore.Resolved rich_view).

(** [U3] opens [L1] in another browser, on the store as the swap request
    of [U2] left it. *)
Definition second_requester_view : World :=
  at_L1 U3 (db (requestSwap rich_view)).

(** The admin panel after a moderator approved [L1] and the list was
    refreshed: its rows are the listings of the store. *)
Definition moderator_view : World :=
  handleModerateListing "L1" "approve" Firestore.Resolved Firestore.Resolved
    (browser store).

(** The same panel after the moderator rejected [L1] and the refresh of
    the list failed. *)
Definition stale_view : World :=
  handleModerateListing "L1" "reject" Firestore.Resolved
    (Firestore.Rejected (Firestore.mkError "unavailable" "offline"))
    moderator_view.

(** The page ['admin'] once authentication is settled, for a visitor
    with the given id. *)
Definition on_admin_page (userId : option string) : World :=
  on_app (fun a => App.mk "admin" None userId true None) (browser store).

(** The admin panel with the users fetched. *)
Definition users_view : World := fetchData Firestore.Resolved (browser store).

(** A listing with no points value, and [U2] looking at it. *)
Definition swap_only : Firestore.ItemDoc :=
  Firestore.mkItem (Some "U1") (Some "Wool Hat") (Some "Hand knitted.")
    (Some "Accessories") (Some "Hat") (Some "M") (Some "Good") (Some [])
    Js.Null (Some []) (Some "available") (Some "2025-07-12T10:00:00.000Z").

Definition swap_only_view : World :=
  at_L1 U2 (Firestore.mkDb (Firestore.users store) (<["L1" := swap_only]> ∅)).

(** [U1] fills the form in, with [points] typed in the points field. *)
Definition now : string := "2025-07-13T08:00:00.000Z".

Definition form_filled (points : string) : World :=
  run [AuthStateChanged (Some U1) today Firestore.Resolved Firestore.Resolved;
       Navigate "addItem" None;
       ChangeField AddItem.OnTitle "Red Scarf";
       ChangeField AddItem.OnPointsValue points]
      (browser store).

(** Three images are attached, three more are refused, one is removed
    and three are attached again. *)
Definition uploads : list Event :=
  [Navigate "addItem" None;
   ImageUpload ["blob:a"; "blob:b"; "blob:c"];
   ImageUpload ["blob:d"; "blob:e"; "blob:f"];
   RemoveImage 1;
   ImageUpload ["blob:g"; "blob:h"; "blob:i"]].

(** [U4] signs in for the first time, opens [L1] and tries to redeem it;
    the profile of [U3] is deleted. *)
Definition newcomer : list Event :=
  [AuthStateChanged (Some (Auth.mkUser "U4" None)) today
     Firestore.Resolved Firestore.Resolved;
   Navigate "itemDetail" (Some "L1");
   FetchItemDetails Firestore.Resolved Firestore.Resolved;
   ClickRedeem Firestore.Resolved;
   DeleteUser "U3" Firestore.Resolved].

End Scenario.

(** ** The sign-in form, the header and the page switch *)

(** [AuthPage]: the form cells. *)
Module AuthForm.
Record State := mk {
  isLogin : bool;
  email : string;
  password : string;
  confirmPassword : string;
  loading : bool
}.

Definition initial : State := mk true "" "" "" false.

Definition setIsLogin (b : bool) (s : State) : State :=
  mk b (email s) (password s) (confirmPassword s) (loading s).
Definition setLoading (b : bool) (s : State) : State :=
  mk (isLogin s) (email s) (password s) (confirmPassword s) b.
End AuthForm.

(** The notice shown when the provider is switched off; [col] is the
    column at which the second line of the literal starts. *)
Definition sign_in_disabled (provider : string) (col : nat) : string :=
  String.concat newline
    [ "Authentication failed: " +:+ provider +:+ " sign-in is not enabled.";
      spaces col +:+ "Please go to Firebase Console > Authentication > Sign-in method tab and enable '"
        +:+ provider +:+ "' provider." ].

(** The [catch] of [handleAuth]. *)
Definition handleAuth_failed (e : Firestore.Error) : World -> World :=
  if bool_decide (Firestore.code e = "auth/operation-not-allowed")
  then showMessageBox (sign_in_disabled "Email/Password" 10) "error"
  else showMessageBox ("Authentication failed: " +:+ Firestore.message e) "error".

(** [handleAuth]; [r] answers [signInWithEmailAndPassword] or
    [createUserWithEmailAndPassword], whichever is called. The form state
    is the page's own; [onAuthSuccess] is [handleNavigate('dashboard')]. *)
Definition handleAuth (r : Firestore.reply) (f : AuthForm.State) (w : World)
    : AuthForm.State * World :=
  let f := AuthForm.setLoading true f in
  if AuthForm.isLogin f then
    match r with
    | Firestore.Resolved =>
        (AuthForm.setLoading false f,
         w |> showMessageBox "Login successful!" "success"
           |> handleNavigate "dashboard" None)
    | Firestore.Rejected e =>
        (AuthForm.setLoading false f, handleAuth_failed e w)
    end
  else if negb (bool_decide (AuthForm.password f = AuthForm.confirmPassword f)) then
    (AuthForm.setLoading false (AuthForm.setLoading false f),
     w |> showMessageBox "Passwords do not match!" "error")
  else
    match r with
    | Firestore.Resolved =>
        (AuthForm.setLoading false f,
         w |> showMessageBox "Registration successful!" "success"
           |> handleNavigate "dashboard" None)
    | Firestore.Rejected e =>
        (AuthForm.setLoading false f, handleAuth_failed e w)
    end.

(** [handleLogout]; [r] answers [signOut]. The user is forgotten by the
    [onAuthStateChanged] callback, not here. *)
Definition handleLogout (r : Firestore.reply) (w : World) : World :=
  match r with
  | Firestore.Resolved =>
      w |> showMessageBox "Logged out successfully!" "success"
        |> handleNavigate "landing" None
  | Firestore.Rejected e =>
      w |> showMessageBox ("Logout failed: " +:+ Firestore.message e) "error"
  end.

(** [userId && userId.includes('admin')], the test of the header and of
    [renderPage]. *)
Definition is_admin (userId : option string) : bool :=
  match userId with
  | Some u => Js.truthy_string u && Js.includes u "admin"
  | None => false
  end.

(** What [renderPage] returns, with the props it passes. *)
Inductive View :=
| LoadingSpinner
| AuthPage
| LandingPage
| BrowseItemsPage
| ItemDetailPage (itemId currentUserId : option string)
| AddItemPage (currentUserId : option string)
| UserDashboardPage (currentUserId : option string)
| AdminPanelPage
| AccessDenied.

(** [renderPage]. *)
Definition renderPage (w : World) : View :=
  let a := app w in
  if negb (App.isAuthReady a) then LoadingSpinner
  else if String.eqb (App.currentPage a) "auth" then AuthPage
  else if String.eqb (App.currentPage a) "landing" then LandingPage
  else if String.eqb (App.currentPage a) "browse" then BrowseItemsPage
  else if String.eqb (App.currentPage a) "itemDetail" then
    ItemDetailPage (App.selectedItemId a) (App.userId a)
  else if String.eqb (App.currentPage a) "addItem" then AddItemPage (App.userId a)
  else if String.eqb (App.currentPage a) "dashboard" then
    UserDashboardPage (App.userId a)
  else if String.eqb (App.currentPage a) "admin" then
    if is_admin (App.userId a) then AdminPanelPage else AccessDenied
  else LandingPage.

(** The pages the buttons of [Header] navigate to, left to right; the last
    button is Logout for a signed-in user. *)
Definition header_pages (userId : option string) : list string :=
  ["landing"; "browse"]
  ++ (if Js.truthy_ref userId then ["dashboard"; "addItem"] else [])
  ++ (if is_admin userId then ["admin"] else [])
  ++ (if Js.truthy_ref userId then [] else ["auth"]).

(** ** The live queries of the browse page and of the dashboard *)

(** [query(items, where("status", "==", "available"))] and
    [query(items, where("userId", "==", currentUserId))], mapped to
    [{id: doc.id, ...doc.data()}]. The order of the documents is the
    backend's and is not modelled. *)
Definition whereStatusAvailable (d : Firestore.Db) : list (string * Firestore.ItemDoc) :=
  filter (fun x => Firestore.status (snd x) = Some "available") (Firestore.allItems d).

Definition whereUserId (currentUserId : string) (d : Firestore.Db)
    : list (string * Firestore.ItemDoc) :=
  filter (fun x => Firestore.userId (snd x) = Some currentUserId) (Firestore.allItems d).

(** [BrowseItemsPage]. *)
Module Browse.
Record State := mk {
  items : list (string * Firestore.ItemDoc);
  loading : bool
}.

Definition initial : State := mk [] true.
End Browse.

(** The two callbacks of the [onSnapshot] of the browse page: the first
    receives the available listings of the store as it is then. *)
Definition onItemsSnapshot (d : Firestore.Db) (s : Browse.State) : Browse.State :=
  Browse.mk (whereStatusAvailable d) false.

Definition onItemsError (e : Firestore.Error) (s : Browse.State) (w : World)
    : Browse.State * World :=
  (Browse.mk (Browse.items s) false,
   if permission_denied e
   then showMessageBox (permission_notice "view items" 14) "error" w
   else showMessageBox ("Error loading items: " +:+ Firestore.message e) "error" w).

(** Text at which [parseInt] stops reading a number: the end of the
    string, or a character that is not a digit. *)
Definition stops_number (t : string) : Prop :=
  match t with
  | String c _ => Ascii.is_nat c = None
  | EmptyString => True
  end.

(** A string that does not start with white space. *)
Definition starts_clean (s : string) : Prop :=
  match s with
  | String c _ => Ascii.is_space c = false
  | EmptyString => True
  end.

(** A string of ASCII characters only: every byte is below 128. *)
Fixpoint ascii_only (s : string) : bool :=
  match s with
  | String c s' => (Ascii.nat_of_ascii c <? 128)%nat && ascii_only s'
  | EmptyString => true
  end.

(** A string of white space only. *)
Fixpoint blank (s : string) : bool :=
  match s with
  | String c s' => Ascii.is_space c && blank s'
  | EmptyString => true
  end.

(** A string without a comma. *)
Fixpoint comma_free (s : string) : bool :=
  match s with
  | String c s' => negb (Ascii.eqb c ",") && comma_free s'
  | EmptyString => true
  end.

(** [t] is [p] without the white space at its two ends: [p] is [t] between
    two blank strings, and [t] neither starts nor ends with white space.
    There is one such [t] for every [p]. *)
Definition trimmed (p t : string) : Prop :=
  (exists pre post, p = pre +:+ t +:+ post /\ blank pre = true /\ blank post = true)
  /\ starts_clean t /\ starts_clean (String.rev t).

(** Every listing of the store is ['available'] or ['rejected']. *)
Definition statuses_written_by_code (w : World) : Prop :=
  forall id d, Firestore.items (db w) !! id = Some d ->
    Firestore.status d = Some "available" \/ Firestore.status d = Some "rejected".

(** * Properties *)

(** ** What leaves the store alone *)

Lemma mount_db page w : db (mount page w) = db w.
Proof. unfold mount. case_bool_decide; reflexivity. Qed.

Lemma handleRedeemPoints_db r w : db (handleRedeemPoints r w) = db w.
Proof.
  unfold handleRedeemPoints.
  repeat case_match; simpl; rewrite ?mount_db; reflexivity.
Qed.

Lemma confirmRedeem_db w : db (confirmRedeem w) = db w.
Proof. unfold confirmRedeem. repeat case_match; reflexivity. Qed.

Lemma redeem_db r w : db (redeem r w) = db w.
Proof.
  unfold redeem. case_match.
  - rewrite confirmRedeem_db. apply handleRedeemPoints_db.
  - apply handleRedeemPoints_db.
Qed.

Lemma handleSwapRequest_db w : db (handleSwapRequest w) = db w.
Proof.
  unfold handleSwapRequest.
  repeat case_match; simpl; rewrite ?mount_db; reflexivity.
Qed.

Lemma confirmSwap_db w : db (confirmSwap w) = db w.
Proof. reflexivity. Qed.

Lemma requestSwap_db w : db (requestSwap w) = db w.
Proof.
  unfold requestSwap. case_match.
  - rewrite confirmSwap_db. apply handleSwapRequest_db.
  - apply handleSwapRequest_db.
Qed.

Lemma lt_numbers (a b : Z) : Js.lt (Js.Number a) (Js.Number b) = (a <? b).
Proof. reflexivity. Qed.

(** A signed-in user has a non-empty identifier. *)
Lemma truthy_string_true (s : string) : s <> "" -> Js.truthy_string s = true.
Proof. destruct s; [congruence | reflexivity]. Qed.

Lemma same_user_true (uid : string) : same_user (Some uid) (Some uid) = true.
Proof. simpl. apply bool_decide_eq_true_2. reflexivity. Qed.

Lemma same_user_false (uid : string) (owner : option string) :
  owner <> Some uid -> same_user (Some uid) owner = false.
Proof.
  intros Hne. destruct owner as [o|]; simpl; [|reflexivity].
  apply bool_decide_eq_false_2. congruence.
Qed.

(** ** Redemption *)

(** The branches of [handleRedeemPoints] for a signed-in visitor [uid]
    looking at listing [L]. *)
Section HandleRedeemPoints.
Variables (w : World) (r : Firestore.reply) (uid id : string)
          (L : Firestore.ItemDoc).
Hypothesis Huser : App.userId (app w) = Some uid.
Hypothesis Hne : uid <> "".
Hypothesis Hitem : ItemDetail.item (detail w) = Some (id, L).

Lemma handleRedeemPoints_owner :
  Firestore.userId L = Some uid ->
  handleRedeemPoints r w
  = showMessageBox "You cannot redeem points for your own item." "info" w.
Proof.
  intros Howner. unfold handleRedeemPoints.
  rewrite Huser, Hitem. cbn [Js.truthy_ref].
  rewrite (truthy_string_true uid Hne). cbn [negb].
  rewrite Howner, same_user_true. reflexivity.
Qed.

Lemma handleRedeemPoints_checked :
  Firestore.userId L <> Some uid ->
  Js.truthy (Firestore.pointsValue L) = true ->
  handleRedeemPoints Firestore.Resolved w
  = match Firestore.getUser uid (db w) with
    | Some userSnap =>
        if Js.lt (Js.Number (Firestore.points userSnap)) (Firestore.pointsValue L)
        then showMessageBox "Not enough points to redeem this item." "error" w
        else on_detail (ItemDetail.setShowConfirmRedeem true) w
    | None => showMessageBox "Not enough points to redeem this item." "error" w
    end.
Proof.
  intros Hother Hpv. unfold handleRedeemPoints.
  rewrite Huser, Hitem. cbn [Js.truthy_ref].
  rewrite (truthy_string_true uid Hne). cbn [negb].
  rewrite (same_user_false uid _ Hother), Hpv. reflexivity.
Qed.
End HandleRedeemPoints.

(** C3. When the signed-in visitor is the owner of the listing on the page
    (and no confirmation is open yet), [redeem] ends with the notice "You
    cannot redeem points for your own item." (the source's
    OwnerCannotRedeemOwnListing) and the store, hence every listing status
    and every balance, is what it was. *)
Theorem owner_cannot_redeem_own_listing (w : World) (r : Firestore.reply)
    (uid id : string) (L : Firestore.ItemDoc) :
  App.userId (app w) = Some uid ->
  uid <> "" ->
  ItemDetail.item (detail w) = Some (id, L) ->
  Firestore.userId L = Some uid ->
  ItemDetail.showConfirmRedeem (detail w) = false ->
  notice (redeem r w) = Some OwnerCannotRedeemOwnListing
  /\ db (redeem r w) = db w.
Proof.
  intros Huser Hne Hitem Howner Hclosed.
  split; [|apply redeem_db].
  unfold redeem.
  rewrite (handleRedeemPoints_owner w r uid id L Huser Hne Hitem Howner).
  simpl. rewrite Hclosed. reflexivity.
Qed.

Lemma owner_cannot_redeem_own_listing_witness :
  notice (redeem Firestore.Resolved Scenario.owner_view)
  = Some OwnerCannotRedeemOwnListing
  /\ db (redeem Firestore.Resolved Scenario.owner_view) = db Scenario.owner_view.
Proof.
  apply (owner_cannot_redeem_own_listing
           Scenario.owner_view Firestore.Resolved "U1" "L1" Scenario.L1).
  - vm_compute. reflexivity.
  - discriminate.
  - vm_compute. reflexivity.
  - reflexivity.
  - vm_compute. reflexivity.
Defined.

(** C4. A redeemer, that is a signed-in visitor who is not the owner
    (the owner is refused before any balance is looked at, which is C3),
    whose profile is read and holds fewer points (a non-negative balance)
    than the listing's points value, gets "Not enough points to redeem
    this item." (the source's InsufficientFunds) when no confirmation is
    open yet; the store, so the balance and the listing's status, is what
    it was. *)
Theorem insufficient_funds_for_other_visitors (w : World) (uid id : string)
    (L : Firestore.ItemDoc) (u : Firestore.UserDoc) (pv : Z) :
  App.userId (app w) = Some uid ->
  uid <> "" ->
  ItemDetail.item (detail w) = Some (id, L) ->
  Firestore.userId L <> Some uid ->
  Firestore.pointsValue L = Js.Number pv ->
  Firestore.users (db w) !! uid = Some u ->
  0 <= Firestore.points u < pv ->
  ItemDetail.showConfirmRedeem (detail w) = false ->
  notice (redeem Firestore.Resolved w) = Some InsufficientFunds
  /\ db (redeem Firestore.Resolved w) = db w.
Proof.
  intros Huser Hne Hitem Hother Hpv Hu Hlow Hclosed.
  split; [|apply redeem_db].
  unfold redeem.
  rewrite (handleRedeemPoints_checked w uid id L Huser Hne Hitem Hother).
  - unfold Firestore.getUser. rewrite Hu, Hpv, lt_numbers.
    destruct (Z.ltb_spec (Firestore.points u) pv) as [_|Hge]; [|lia].
    simpl. rewrite Hclosed. reflexivity.
  - rewrite Hpv. simpl. destruct (Z.eqb_spec pv 0); [lia | reflexivity].
Qed.

Lemma insufficient_funds_for_other_visitors_witness :
  notice (redeem Firestore.Resolved Scenario.poor_view) = Some InsufficientFunds
  /\ db (redeem Firestore.Resolved Scenario.poor_view) = db Scenario.poor_view.
Proof.
  apply (insufficient_funds_for_other_visitors
           Scenario.poor_view "U3" "L1" Scenario.L1
           (Firestore.mkUser (Some "u3@rewear.com") 0 Scenario.today) 100).
  - vm_compute. reflexivity.
  - discriminate.
  - vm_compute. reflexivity.
  - discriminate.
  - reflexivity.
  - vm_compute. reflexivity.
  - simpl. lia.
  - vm_compute. reflexivity.
Defined.

(** C1, at listing [L1] (available, 100 points) and visitor [U2] (150
    points): the button is offered, [redeem] reports "Successfully redeemed
    100 points for this item!", and afterwards [U2] still holds 150 points
    and [L1] is still [available]. *)
Theorem redeem_success_debits_nothing :
  redeem_button Scenario.rich_view = true
  /\ notice (redeem Firestore.Resolved Scenario.rich_view)
     = Some (Notice.mk "Successfully redeemed 100 points for this item!" "success")
  /\ succeeded (redeem Firestore.Resolved Scenario.rich_view) = true
  /\ balance "U2" (redeem Firestore.Resolved Scenario.rich_view) = Some 150
  /\ listing_status "L1" (redeem Firestore.Resolved Scenario.rich_view)
     = Some "available".
Proof. vm_compute. repeat split; reflexivity. Qed.

(** C7, same listing and visitor: after a first successful [redeem], the
    closing of its notice and a fresh read of the listing, the button is
    still offered, and a second [redeem] succeeds as well instead of being
    refused; the balance is untouched by both. *)
Theorem redeem_twice_succeeds_twice :
  succeeded (redeem Firestore.Resolved Scenario.rich_view) = true
  /\ redeem_button Scenario.after_one_redeem = true
  /\ succeeded (redeem Firestore.Resolved Scenario.after_one_redeem) = true
  /\ notice (redeem Firestore.Resolved Scenario.after_one_redeem)
     <> Some ListingNotRedeemable
  /\ balance "U2" (redeem Firestore.Resolved Scenario.after_one_redeem) = Some 150
  /\ listing_status "L1" (redeem Firestore.Resolved Scenario.after_one_redeem)
     = Some "available".
Proof. vm_compute. repeat split; discriminate. Qed.

(** ** Swap requests *)

Lemma handleSwapRequest_other (w : World) (uid id : string) (L : Firestore.ItemDoc) :
  App.userId (app w) = Some uid ->
  uid <> "" ->
  ItemDetail.item (detail w) = Some (id, L) ->
  Firestore.userId L <> Some uid ->
  handleSwapRequest w = on_detail (ItemDetail.setShowConfirmSwap true) w.
Proof.
  intros Huser Hne Hitem Hother. unfold handleSwapRequest.
  rewrite Huser, Hitem. cbn [Js.truthy_ref].
  rewrite (truthy_string_true uid Hne). cbn [negb].
  rewrite (same_user_false uid _ Hother). reflexivity.
Qed.

(** What [requestSwap] does for any signed-in visitor who is not the
    owner: the answer is "Swap request sent successfully!" and the store
    is left as it was, so nothing records the request. *)
Theorem every_swap_request_is_accepted (w : World) (uid id : string)
    (L : Firestore.ItemDoc) :
  App.userId (app w) = Some uid ->
  uid <> "" ->
  ItemDetail.item (detail w) = Some (id, L) ->
  Firestore.userId L <> Some uid ->
  notice (requestSwap w) = Some SwapRequestSent
  /\ db (requestSwap w) = db w.
Proof.
  intros Huser Hne Hitem Hother.
  split; [|apply requestSwap_db].
  unfold requestSwap.
  rewrite (handleSwapRequest_other w uid id L Huser Hne Hitem Hother).
  reflexivity.
Qed.

Lemma every_swap_request_is_accepted_witness :
  notice (requestSwap Scenario.rich_view) = Some SwapRequestSent
  /\ db (requestSwap Scenario.rich_view) = db Scenario.rich_view.
Proof.
  apply (every_swap_request_is_accepted Scenario.rich_view "U2" "L1" Scenario.L1).
  - vm_compute. reflexivity.
  - discriminate.
  - vm_compute. reflexivity.
  - discriminate.
Defined.

(** C5, at listing [L1] and the visitors [U2] and [U3]: [U2] requests a
    swap of [L1] and is told "Swap request sent successfully!", yet the
    store is what it was: no request is recorded and [L1] is still
    ['available']. [U3] then requests a swap of [L1] on that store, before
    anything was resolved, and gets the same success notice where
    SwapAlreadyPending is due. *)
Theorem second_swap_request_not_refused :
  succeeded (requestSwap Scenario.rich_view) = true
  /\ db (requestSwap Scenario.rich_view) = Scenario.store
  /\ listing_status "L1" (requestSwap Scenario.rich_view) = Some "available"
  /\ notice (requestSwap Scenario.second_requester_view) = Some SwapRequestSent
  /\ succeeded (requestSwap Scenario.second_requester_view) = true
  /\ db (requestSwap Scenario.second_requester_view) = Scenario.store.
Proof. vm_compute. repeat split; reflexivity. Qed.

(** ** Moderation *)

Lemma moderate_status listingId action r_get w :
  listing_status listingId
    (handleModerateListing listingId action Firestore.Resolved r_get w)
  = Some (moderated_status action).
Proof.
  unfold handleModerateListing, listing_status.
  destruct r_get; simpl; rewrite lookup_insert_eq; reflexivity.
Qed.

(** C6, as amended. [handleModerateListing] has no InvalidTransition: once
    the write is accepted the status is ['available'] for ['approve'] and
    ['rejected'] for any other action, whatever it was; when the list is
    refreshed as well, success is reported and the rows of the page are
    the listings of the store. A refused write leaves the store as it
    was. The only guard is in the page, which draws the buttons from its
    own rows: Approve unless the row's status is ['available'], Reject
    unless it is ['rejected']. So for a row that is the stored listing and
    is ['available'] or ['rejected'], an offered action follows an edge of
    section 4.2. *)
Theorem moderate_writes_unconditionally (w : World) (listingId action : string)
    (r_get : Firestore.reply) :
  let w' := handleModerateListing listingId action Firestore.Resolved r_get w in
  listing_status listingId w' = Some (moderated_status action)
  /\ (r_get = Firestore.Resolved ->
      succeeded w' = true
      /\ Admin.listings (admin w') = Firestore.allItems (db w'))
  /\ (forall e, db (handleModerateListing listingId action (Firestore.Rejected e) r_get w) = db w)
  /\ (forall (row : Firestore.ItemDoc) (s : string),
        (listingId, row) ∈ Admin.listings (admin w) ->
        Firestore.items (db w) !! listingId = Some row ->
        Firestore.status row = Some s ->
        s = "available" \/ s = "rejected" ->
        (action = "approve" /\ approve_button row = true)
        \/ (action = "reject" /\ reject_button row = true) ->
        listing_status listingId w = Some s
        /\ spec_edge s (moderated_status action) = true).
Proof.
  intros w'. split; [|split; [|split]].
  - apply moderate_status.
  - intros ->. split; reflexivity.
  - intros e. reflexivity.
  - intros row s _ Hstored Hs Hlegal Hoffered. split.
    + unfold listing_status. rewrite Hstored. exact Hs.
    + destruct Hlegal as [-> | ->], Hoffered as [[-> Hb] | [-> Hb]];
        unfold approve_button, reject_button in Hb; rewrite Hs in Hb;
        vm_compute in Hb; try discriminate; reflexivity.
Qed.

Lemma moderate_writes_unconditionally_witness :
  listing_status "L1"
    (handleModerateListing "L1" "reject" Firestore.Resolved Firestore.Resolved
       Scenario.moderator_view) = Some "rejected"
  /\ succeeded
       (handleModerateListing "L1" "reject" Firestore.Resolved Firestore.Resolved
          Scenario.moderator_view) = true
  /\ listing_status "L1" Scenario.moderator_view = Some "available"
  /\ spec_edge "available" "rejected" = true.
Proof.
  destruct (moderate_writes_unconditionally
              Scenario.moderator_view "L1" "reject" Firestore.Resolved)
    as (Hstatus & Hsuccess & _ & Hedge).
  split; [exact Hstatus | split; [apply Hsuccess; reflexivity|]].
  apply (Hedge Scenario.L1 "available").
  - vm_compute. apply list_elem_of_here.
  - vm_compute. reflexivity.
  - reflexivity.
  - left. reflexivity.
  - right. split; reflexivity.
Defined.

(** A row goes stale when the refresh after an accepted write fails: the
    moderator rejects [L1] and the list cannot be read again, so the row
    still says ['available'] while the store says ['rejected']; the page
    goes on offering Reject, and pressing it reports success on a
    moderation from ['rejected'] to ['rejected'], which is no edge. *)
Lemma stale_row_offers_a_moderation_that_is_no_edge :
  ("L1", Scenario.L1) ∈ Admin.listings (admin Scenario.stale_view)
  /\ reject_button Scenario.L1 = true
  /\ listing_status "L1" Scenario.stale_view = Some "rejected"
  /\ succeeded
       (handleModerateListing "L1" "reject" Firestore.Resolved Firestore.Resolved
          Scenario.stale_view) = true
  /\ spec_edge "rejected" (moderated_status "reject") = false.
Proof.
  split; [vm_compute; apply list_elem_of_here|].
  vm_compute. repeat split; reflexivity.
Qed.

(** C6, as stated, fails twice: approving [L1] while it is ['available']
    is no edge and yet reports success; approving it once ['redeemed'], a
    terminal state, makes it ['available'] again. *)
Lemma moderate_ignores_the_edges :
  ~ moderate_follows_spec "L1" "approve" (Scenario.browser Scenario.store)
  /\ ~ moderate_follows_spec "L1" "approve"
        (Scenario.browser (Scenario.store_with_status "redeemed")).
Proof.
  split.
  - intros H. specialize (H "available" eq_refl).
    vm_compute in H. destruct H as [H _]. discriminate.
  - intros H. specialize (H "redeemed" eq_refl).
    vm_compute in H. destruct H as [_ H]. discriminate.
Qed.

(** ** Strings and numerals *)

(** Reversal and trimming of strings. *)
Lemma append_cons (c : ascii) (s t : string) :
  String c s +:+ t = String c (s +:+ t).
Proof. reflexivity. Qed.

Lemma append_nil_r (s : string) : s +:+ "" = s.
Proof. induction s as [|c s IH]; [reflexivity|]. rewrite append_cons, IH. reflexivity. Qed.

Lemma append_assoc (s t u : string) : (s +:+ t) +:+ u = s +:+ t +:+ u.
Proof.
  induction s as [|c s IH]; [reflexivity|].
  rewrite !append_cons, IH. reflexivity.
Qed.

Lemma rev_app_append (s acc : string) :
  String.rev_app s acc = String.rev s +:+ acc.
Proof.
  unfold String.rev. revert acc.
  induction s as [|c s IH]; intros acc; simpl; [reflexivity|].
  rewrite (IH (String c acc)), (IH (String c "")), append_assoc. reflexivity.
Qed.

Lemma rev_cons (c : ascii) (s : string) :
  String.rev (String c s) = String.rev s +:+ String c "".
Proof. unfold String.rev at 1. simpl. apply rev_app_append. Qed.

Lemma rev_append (s t : string) :
  String.rev (s +:+ t) = String.rev t +:+ String.rev s.
Proof.
  induction s as [|c s IH].
  - change ("" +:+ t) with t. rewrite append_nil_r. reflexivity.
  - rewrite append_cons, !rev_cons, IH, append_assoc. reflexivity.
Qed.

Lemma rev_involutive (s : string) : String.rev (String.rev s) = s.
Proof.
  induction s as [|c s IH]; [reflexivity|].
  rewrite rev_cons, rev_append, IH. reflexivity.
Qed.

Lemma trim_start_clean (s : string) : starts_clean (Js.trim_start s).
Proof.
  induction s as [|c s IH]; simpl; [exact I|].
  destruct (Ascii.is_space c) eqn:Hc; [exact IH | exact Hc].
Qed.

Lemma trim_start_id (s : string) : starts_clean s -> Js.trim_start s = s.
Proof. destruct s as [|c s]; simpl; [reflexivity|]. intros ->. reflexivity. Qed.

Lemma trim_start_suffix (s : string) : exists p, s = p +:+ Js.trim_start s.
Proof.
  induction s as [|c s [p IH]]; simpl.
  - exists "". reflexivity.
  - destruct (Ascii.is_space c).
    + exists (String c p). rewrite append_cons, <- IH. reflexivity.
    + exists "". reflexivity.
Qed.

Lemma starts_clean_append (s t : string) :
  s <> "" -> starts_clean (s +:+ t) -> starts_clean s.
Proof. destruct s; [congruence|]. intros _ H. exact H. Qed.

Lemma rev_eq_nil (s : string) : String.rev s = "" -> s = "".
Proof.
  destruct s as [|c s]; [reflexivity|]. rewrite rev_cons.
  destruct (String.rev s); discriminate.
Qed.

Lemma trim_clean_both_ends (s : string) :
  starts_clean (Js.trim s) /\ starts_clean (String.rev (Js.trim s)).
Proof.
  unfold Js.trim. set (a := Js.trim_start s). set (c := Js.trim_start (String.rev a)).
  rewrite rev_involutive. split; [|apply trim_start_clean].
  destruct (trim_start_suffix (String.rev a)) as [p Hp]. fold c in Hp.
  assert (Ha : a = String.rev c +:+ String.rev p).
  { rewrite <- rev_append, <- Hp, rev_involutive. reflexivity. }
  destruct (decide (String.rev c = "")) as [-> | Hne]; [exact I|].
  apply (starts_clean_append _ (String.rev p) Hne).
  rewrite <- Ha. apply trim_start_clean.
Qed.

Lemma trim_idempotent (s : string) : Js.trim (Js.trim s) = Js.trim s.
Proof.
  destruct (trim_clean_both_ends s) as [Hhead Htail].
  unfold Js.trim at 1.
  rewrite (trim_start_id _ Hhead), (trim_start_id _ Htail).
  apply rev_involutive.
Qed.

Lemma blank_append (u v : string) :
  Js.trim_start (u +:+ v) = "" -> Js.trim_start v = "".
Proof.
  induction u as [|c u IH]; [intros H; exact H|].
  rewrite append_cons. simpl. destruct (Ascii.is_space c); [exact IH | discriminate].
Qed.

Lemma trim_blank (s : string) : Js.trim s = "" -> Js.trim_start s = "".
Proof.
  unfold Js.trim. intros Hblank%rev_eq_nil.
  pose proof (trim_start_clean s) as Hclean.
  destruct (Js.trim_start s) as [|c t]; [reflexivity|].
  rewrite rev_cons in Hblank. apply blank_append in Hblank.
  simpl in Hblank, Hclean. rewrite Hclean in Hblank. discriminate Hblank.
Qed.

Lemma split_comma_go_blank (s cur : string) :
  Js.trim_start s = "" ->
  Js.split_comma_go s cur = [String.rev (String.rev_app s cur)].
Proof.
  revert cur. induction s as [|c s IH]; intros cur Hs; simpl; [reflexivity|].
  simpl in Hs. destruct (Ascii.is_space c) eqn:Hc; [|discriminate Hs].
  destruct c as [[] [] [] [] [] [] [] []]; try discriminate Hc; apply IH, Hs.
Qed.

(** Cutting a string at its commas. *)
Lemma split_comma_go_cons (c : ascii) (s cur : string) :
  Js.split_comma_go (String c s) cur
  = if Ascii.eqb c ","
    then String.rev cur :: Js.split_comma_go s ""
    else Js.split_comma_go s (String c cur).
Proof. destruct c as [[] [] [] [] [] [] [] []]; reflexivity. Qed.

Lemma split_comma_go_nonempty (s cur : string) : Js.split_comma_go s cur <> [].
Proof.
  revert cur. induction s as [|c s IH]; intros cur; [discriminate|].
  rewrite split_comma_go_cons. destruct (Ascii.eqb c ","); [discriminate | apply IH].
Qed.

Lemma concat_cons (sep x : string) (l : list string) :
  l <> [] -> String.concat sep (x :: l) = x +:+ sep +:+ String.concat sep l.
Proof. destruct l; [congruence | reflexivity]. Qed.

Lemma comma_free_app (s t : string) :
  comma_free (s +:+ t) = comma_free s && comma_free t.
Proof.
  induction s as [|c s IH]; [reflexivity|].
  rewrite append_cons. simpl. rewrite IH, andb_assoc. reflexivity.
Qed.

Lemma comma_free_rev (s : string) : comma_free (String.rev s) = comma_free s.
Proof.
  induction s as [|c s IH]; [reflexivity|].
  rewrite rev_cons, comma_free_app, IH. simpl.
  rewrite andb_true_r. apply andb_comm.
Qed.

Lemma split_comma_go_pieces (s cur : string) :
  comma_free cur = true ->
  String.concat "," (Js.split_comma_go s cur) = String.rev cur +:+ s
  /\ Forall (fun p => comma_free p = true) (Js.split_comma_go s cur).
Proof.
  revert cur. induction s as [|c s IH]; intros cur Hcur.
  - simpl. rewrite append_nil_r. split; [reflexivity|].
    apply Forall_cons. split; [|apply Forall_nil_2].
    rewrite comma_free_rev. exact Hcur.
  - rewrite split_comma_go_cons.
    destruct (Ascii.eqb_spec c ",") as [-> | Hc].
    + destruct (IH "" eq_refl) as [Hjoin Hfree].
      rewrite concat_cons by apply split_comma_go_nonempty.
      rewrite Hjoin. split; [reflexivity|].
      apply Forall_cons. split; [|exact Hfree].
      rewrite comma_free_rev. exact Hcur.
    + assert (Hcur' : comma_free (String c cur) = true).
      { simpl. rewrite Hcur, andb_true_r.
        apply negb_true_iff, Ascii.eqb_neq, Hc. }
      destruct (IH (String c cur) Hcur') as [Hjoin Hfree].
      split; [|exact Hfree].
      rewrite Hjoin, rev_cons, append_assoc. reflexivity.
Qed.

(** White space at the two ends. *)
Lemma blank_app (s t : string) : blank (s +:+ t) = blank s && blank t.
Proof.
  induction s as [|c s IH]; [reflexivity|].
  rewrite append_cons. simpl. rewrite IH, andb_assoc. reflexivity.
Qed.

Lemma blank_rev (s : string) : blank (String.rev s) = blank s.
Proof.
  induction s as [|c s IH]; [reflexivity|].
  rewrite rev_cons, blank_app, IH. simpl.
  rewrite andb_true_r. apply andb_comm.
Qed.

Lemma blank_trim_start (s : string) : blank s = true -> Js.trim_start s = "".
Proof.
  induction s as [|c s IH]; simpl; [reflexivity|].
  intros [-> H]%andb_true_iff. apply IH, H.
Qed.

Lemma trim_start_blank_prefix (s : string) :
  exists p, s = p +:+ Js.trim_start s /\ blank p = true.
Proof.
  induction s as [|c s (p & IH & Hp)]; simpl.
  - exists "". split; reflexivity.
  - destruct (Ascii.is_space c) eqn:Hc.
    + exists (String c p). split.
      * rewrite append_cons, <- IH. reflexivity.
      * simpl. rewrite Hc, Hp. reflexivity.
    + exists "". split; reflexivity.
Qed.

Lemma trim_trimmed (p : string) : trimmed p (Js.trim p).
Proof.
  split; [|apply trim_clean_both_ends].
  destruct (trim_start_blank_prefix p) as (pre & Hpre & Hblank_pre).
  destruct (trim_start_blank_prefix (String.rev (Js.trim_start p)))
    as (post & Hpost & Hblank_post).
  exists pre, (String.rev post). split; [|split; [exact Hblank_pre|]].
  - unfold Js.trim. rewrite <- rev_append, <- Hpost, rev_involutive. exact Hpre.
  - rewrite blank_rev. exact Hblank_post.
Qed.

(** Decimal numerals, as [pretty] writes them and [parseInt] reads them. *)
Lemma is_nat_pretty_N_char (d : N) :
  (d < 10)%N -> Ascii.is_nat (pretty_N_char d) = Some (N.to_nat d).
Proof.
  intros Hd.
  assert (d = 0 \/ d = 1 \/ d = 2 \/ d = 3 \/ d = 4 \/ d = 5
          \/ d = 6 \/ d = 7 \/ d = 8 \/ d = 9)%N as Hcases by lia.
  repeat destruct Hcases as [-> | Hcases]; try subst d; reflexivity.
Qed.

Lemma pretty_N_go_append (x : N) (s t : string) :
  pretty_N_go x (s +:+ t) = pretty_N_go x s +:+ t.
Proof.
  revert s. induction (N.lt_wf_0 x) as [x _ IH]; intros s.
  destruct (decide (x = 0)%N) as [-> | Hpos]; [reflexivity|].
  rewrite (pretty_N_go_step x s), (pretty_N_go_step x (s +:+ t)) by lia.
  rewrite <- append_cons. apply IH. apply N.div_lt; lia.
Qed.

Lemma digits_pretty_N_go (x : N) (s : string) (seen : bool) :
  (0 < x)%N ->
  Js.digits (pretty_N_go x s) 0 seen = Js.digits s (Z.of_N x) true.
Proof.
  revert s seen. induction (N.lt_wf_0 x) as [x _ IH]; intros s seen Hpos.
  rewrite pretty_N_go_step by exact Hpos.
  assert (Hmod : (x `mod` 10 < 10)%N) by (apply N.mod_lt; lia).
  assert (Hx : Z.of_N x = 10 * Z.of_N (x `div` 10) + Z.of_nat (N.to_nat (x `mod` 10))).
  { rewrite N_nat_Z. rewrite (N.div_mod x 10) at 1 by lia. lia. }
  destruct (decide (x `div` 10 = 0)%N) as [Hsmall | Hbig].
  - rewrite Hsmall, pretty_N_go_0. simpl.
    rewrite (is_nat_pretty_N_char _ Hmod), Hx, Hsmall. reflexivity.
  - rewrite (IH (x `div` 10)%N) by (try apply N.div_lt; lia). simpl.
    rewrite (is_nat_pretty_N_char _ Hmod), Hx. reflexivity.
Qed.

Lemma pretty_N_go_head (x : N) (s : string) :
  (0 < x)%N ->
  exists d rest, (d < 10)%N /\ pretty_N_go x s = String (pretty_N_char d) rest.
Proof.
  revert s. induction (N.lt_wf_0 x) as [x _ IH]; intros s Hpos.
  rewrite pretty_N_go_step by exact Hpos.
  destruct (decide (x `div` 10 = 0)%N) as [Hsmall | Hbig].
  - rewrite Hsmall, pretty_N_go_0. eexists _, _. split; [|reflexivity].
    apply N.mod_lt. lia.
  - apply IH; [apply N.div_lt; lia | apply N.neq_0_lt_0, Hbig].
Qed.

Lemma parseInt10_digit_head (d : N) (rest : string) :
  (d < 10)%N ->
  Js.parseInt10 (String (pretty_N_char d) rest)
  = Js.digits (String (pretty_N_char d) rest) 0 false.
Proof.
  intros Hd.
  assert (d = 0 \/ d = 1 \/ d = 2 \/ d = 3 \/ d = 4 \/ d = 5
          \/ d = 6 \/ d = 7 \/ d = 8 \/ d = 9)%N as Hcases by lia.
  repeat destruct Hcases as [-> | Hcases]; try subst d; reflexivity.
Qed.

Lemma digits_stop (t : string) (acc : Z) :
  stops_number t -> Js.digits t acc true = Js.Number acc.
Proof. destruct t as [|c t]; simpl; [reflexivity|]. intros ->. reflexivity. Qed.

Lemma parseInt10_pretty_N (x : N) (t : string) :
  (0 < x)%N -> stops_number t ->
  Js.parseInt10 (pretty_N_go x "" +:+ t) = Js.Number (Z.of_N x)
  /\ Js.digits (pretty_N_go x "" +:+ t) 0 false = Js.Number (Z.of_N x)
  /\ pretty_N_go x "" +:+ t <> "".
Proof.
  intros Hpos Hstop. rewrite <- pretty_N_go_append.
  change ("" +:+ t) with t.
  destruct (pretty_N_go_head x t Hpos) as (d & rest & Hd & Hhead).
  assert (Hdigits : Js.digits (pretty_N_go x t) 0 false = Js.Number (Z.of_N x)).
  { rewrite digits_pretty_N_go by exact Hpos. apply digits_stop, Hstop. }
  split; [|split; [exact Hdigits|]].
  - rewrite Hhead, parseInt10_digit_head by exact Hd. rewrite <- Hhead. exact Hdigits.
  - rewrite Hhead. discriminate.
Qed.

(** A points field that starts with the numeral of [n] and goes on with
    text at which the reading stops is stored as [n]. *)
Lemma newItem_points_numeral (uid now : string) (f : AddItem.State)
    (n : Z) (t : string) :
  AddItem.pointsValue f = pretty n +:+ t ->
  stops_number t ->
  Firestore.pointsValue (newItem uid now f) = Js.Number n.
Proof.
  intros Hfield Hstop. simpl. rewrite Hfield.
  destruct n as [|p|p]; unfold pretty, pretty_Z.
  - change ("0" +:+ t) with (String "0" t). simpl.
    unfold Js.parseInt10. simpl. apply digits_stop, Hstop.
  - unfold pretty, pretty_positive, pretty, pretty_N.
    rewrite decide_False by discriminate.
    destruct (parseInt10_pretty_N (N.pos p) t) as (Hparse & _ & Hne);
      [lia | exact Hstop |].
    destruct (pretty_N_go (N.pos p) "" +:+ t); [congruence|].
    simpl. exact Hparse.
  - unfold pretty, pretty_positive, pretty, pretty_N.
    rewrite decide_False by discriminate.
    destruct (parseInt10_pretty_N (N.pos p) t) as (_ & Hdigits & _);
      [lia | exact Hstop |].
    rewrite append_assoc.
    change ("-" +:+ pretty_N_go (N.pos p) "" +:+ t)
      with (String "-" (pretty_N_go (N.pos p) "" +:+ t)).
    simpl. unfold Js.parseInt10. simpl. rewrite Hdigits. reflexivity.
Qed.

(** ** Listing an item *)

Lemma mount_app page w : app (mount page w) = app w.
Proof. unfold mount. case_bool_decide; reflexivity. Qed.

Lemma handleNavigate_notice page itemId w :
  notice (handleNavigate page itemId w) = notice w.
Proof. unfold notice, handleNavigate. simpl. rewrite mount_app. reflexivity. Qed.

Lemma handleSubmit_listed (w : World) (id now : string) (r : Firestore.reply) :
  notice (handleSubmit id now r w) = Some ItemListed ->
  exists uid, Firestore.items (db (handleSubmit id now r w)) !! id
              = Some (newItem uid now (addItem w)).
Proof.
  unfold handleSubmit.
  destruct (App.userId (app w)) as [currentUserId|];
    [destruct (Js.truthy_string currentUserId); cbn [negb];
     [destruct r as [|e]|]|].
  - intros _. exists currentUserId.
    simpl. rewrite mount_db. simpl. apply lookup_insert_eq.
  - destruct (permission_denied e); simpl; intros H; discriminate H.
  - rewrite handleNavigate_notice. intros H; discriminate H.
  - rewrite handleNavigate_notice. intros H; discriminate H.
Qed.

(** C8. Whenever [handleSubmit] reports "Item listed successfully!", the
    document stored under the new identifier has [status] ['available']. *)
Theorem listing_is_created_available (w : World) (id now : string)
    (r : Firestore.reply) :
  notice (handleSubmit id now r w) = Some ItemListed ->
  exists d, Firestore.items (db (handleSubmit id now r w)) !! id = Some d
            /\ Firestore.status d = Some "available".
Proof.
  intros Hlisted.
  destruct (handleSubmit_listed w id now r Hlisted) as [uid Hd].
  exists (newItem uid now (addItem w)). split; [exact Hd | reflexivity].
Qed.

Lemma listing_is_created_available_witness :
  exists d,
    Firestore.items
      (db (handleSubmit "L2" Scenario.now Firestore.Resolved
             (Scenario.form_filled "40"))) !! "L2" = Some d
    /\ Firestore.status d = Some "available".
Proof.
  apply (listing_is_created_available
           (Scenario.form_filled "40") "L2" Scenario.now Firestore.Resolved).
  vm_compute. reflexivity.
Defined.

(** [parseInt] gives an integer or [NaN], never [null] or [undefined]. *)
Lemma digits_value s acc seen :
  Js.digits s acc seen = Js.NaN \/ exists n, Js.digits s acc seen = Js.Number n.
Proof.
  revert acc seen. induction s as [|c s IH]; intros acc seen; simpl.
  - destruct seen; eauto.
  - destruct (Ascii.is_nat c); [apply IH | destruct seen; eauto].
Qed.

Lemma parseInt10_value s :
  Js.parseInt10 s = Js.NaN \/ exists n, Js.parseInt10 s = Js.Number n.
Proof.
  unfold Js.parseInt10.
  assert (Hneg : forall t, Js.negate (Js.digits t 0 false) = Js.NaN
                           \/ exists n, Js.negate (Js.digits t 0 false) = Js.Number n).
  { intros t. destruct (digits_value t 0 false) as [-> | [n ->]]; simpl; eauto. }
  repeat case_match; subst; auto using digits_value.
Qed.

(** C9, as amended. The points value of a listing created by the form is
    [null] exactly when the points field is empty, and is never missing.
    Otherwise it is what [parseInt(field, 10)] reads, with no check of
    its sign: a field that starts with the decimal numeral of an integer
    [n] within 2^53 (the range a JavaScript number holds exactly),
    followed by nothing or by text that does not start with a digit,
    stores [n], a negative [n] included. A listing whose points value is
    absent (or 0, or [NaN]) is swap-only: the redeem button is not
    offered, [redeem] never reports success and the store is left as it
    was. *)
Theorem points_value_unchecked_absent_is_swap_only
    (w0 : World) (id0 now : string) (r0 : Firestore.reply)
    (w : World) (r : Firestore.reply) (id : string) (L : Firestore.ItemDoc) :
  (notice (handleSubmit id0 now r0 w0) = Some ItemListed ->
   exists d,
     Firestore.items (db (handleSubmit id0 now r0 w0)) !! id0 = Some d
     /\ (Firestore.pointsValue d = Js.Null
         <-> AddItem.pointsValue (addItem w0) = "")
     /\ Firestore.pointsValue d <> Js.Undefined
     /\ (forall (n : Z) (t : string),
           Z.abs n <= 2 ^ 53 ->
           AddItem.pointsValue (addItem w0) = pretty n +:+ t ->
           stops_number t ->
           Firestore.pointsValue d = Js.Number n))
  /\ (ItemDetail.item (detail w) = Some (id, L) ->
      Js.truthy (Firestore.pointsValue L) = false ->
      ItemDetail.showConfirmRedeem (detail w) = false ->
      redeem_button w = false
      /\ succeeded (redeem r w) = false
      /\ db (redeem r w) = db w).
Proof.
  split.
  - intros Hlisted.
    destruct (handleSubmit_listed w0 id0 now r0 Hlisted) as [uid Hd].
    exists (newItem uid now (addItem w0)). split; [exact Hd|].
    split; [|split].
    + simpl. destruct (AddItem.pointsValue (addItem w0)) as [|c s] eqn:Hfield.
      * split; reflexivity.
      * simpl. split; [|discriminate].
        destruct (parseInt10_value (String c s)) as [Hv | [n Hv]];
          rewrite Hv; discriminate.
    + simpl. destruct (AddItem.pointsValue (addItem w0)) as [|c s] eqn:Hfield.
      * discriminate.
      * simpl.
        destruct (parseInt10_value (String c s)) as [Hv | [n Hv]];
          rewrite Hv; discriminate.
    + intros n t _ Hfield Hstop.
      exact (newItem_points_numeral uid now (addItem w0) n t Hfield Hstop).
  - intros Hitem Hpv Hclosed. split; [|split; [|apply redeem_db]].
    + unfold redeem_button, swap_button, loaded_item.
      destruct (ItemDetail.loading (detail w)); [reflexivity|].
      rewrite Hitem. simpl. rewrite Hpv. apply andb_false_r.
    + unfold redeem, handleRedeemPoints. rewrite Hitem.
      destruct (App.userId (app w)) as [u|] eqn:Hu; cbn [Js.truthy_ref negb].
      * destruct (Js.truthy_string u); cbn [negb].
        -- destruct (same_user (Some u) (Firestore.userId L)).
           ++ simpl. rewrite Hclosed. reflexivity.
           ++ rewrite Hpv. simpl. rewrite Hclosed. reflexivity.
        -- unfold handleNavigate, mount. simpl.
           case_bool_decide; simpl; rewrite ?Hclosed; reflexivity.
      * unfold handleNavigate, mount. simpl.
        case_bool_decide; simpl; rewrite ?Hclosed; reflexivity.
Qed.

Lemma points_value_unchecked_absent_is_swap_only_witness :
  (exists d,
     Firestore.items
       (db (handleSubmit "L2" Scenario.now Firestore.Resolved
              (Scenario.form_filled "-5"))) !! "L2" = Some d
     /\ Firestore.pointsValue d = Js.Number (-5))
  /\ redeem_button Scenario.swap_only_view = false
  /\ succeeded (redeem Firestore.Resolved Scenario.swap_only_view) = false
  /\ db (redeem Firestore.Resolved Scenario.swap_only_view)
     = db Scenario.swap_only_view.
Proof.
  destruct (points_value_unchecked_absent_is_swap_only
              (Scenario.form_filled "-5") "L2" Scenario.now Firestore.Resolved
              Scenario.swap_only_view Firestore.Resolved "L1" Scenario.swap_only)
    as [Hsubmit Hswap].
  split.
  - destruct Hsubmit as (d & Hd & _ & _ & Hnumeral); [vm_compute; reflexivity|].
    exists d. split; [exact Hd|].
    apply (Hnumeral (-5) "").
    + vm_compute. discriminate.
    + vm_compute. reflexivity.
    + exact I.
  - apply Hswap; vm_compute; reflexivity.
Defined.

(** C9, as stated, fails: [U1] types -5 in the points field and submits;
    the listing is stored with points value -5. *)
Lemma negative_points_value_is_stored :
  notice (handleSubmit "L2" Scenario.now Firestore.Resolved
            (Scenario.form_filled "-5")) = Some ItemListed
  /\ exists d,
       Firestore.items
         (db (handleSubmit "L2" Scenario.now Firestore.Resolved
                (Scenario.form_filled "-5"))) !! "L2" = Some d
       /\ Firestore.pointsValue d = Js.Number (-5)
       /\ ~ absent_or_non_negative (Firestore.pointsValue d).
Proof.
  split; [vm_compute; reflexivity|].
  eexists. split; [vm_compute; reflexivity|].
  split; [reflexivity|].
  intros [H | [H | (n & Hn & H)]]; try discriminate H.
  injection H as <-. lia.
Qed.

(** ** Runs *)

(** A property every step keeps holds along every run. *)
Lemma run_invariant (P : World -> Prop) :
  (forall e w, P w -> P (step e w)) ->
  forall es w, P w -> P (run es w).
Proof.
  intros Hstep es. induction es as [|e es IH]; intros w Hw; simpl.
  - exact Hw.
  - apply IH, Hstep, Hw.
Qed.

(** ** The images of a new listing *)

Lemma filter_index_length {A} keep (l : list A) i :
  (length (filter_index keep l i) <= length l)%nat.
Proof.
  revert i. induction l as [|x l IH]; intros i; simpl; [lia|].
  destruct (keep i); simpl; specialize (IH (S i)); lia.
Qed.

(** Steps that keep the stored listings, and keep or empty the form. *)
Lemma images_within_limit_frame (w w' : World) :
  Firestore.items (db w') = Firestore.items (db w) ->
  AddItem.images (addItem w') = AddItem.images (addItem w)
  \/ AddItem.images (addItem w') = [] ->
  images_within_limit w -> images_within_limit w'.
Proof.
  intros Hdb Hadd [Hform Hstore]. split.
  - destruct Hadd as [-> | ->]; [exact Hform | simpl; lia].
  - rewrite Hdb. exact Hstore.
Qed.

Ltac run_handler :=
  unfold onAuthStateChanged, onUserSnapshot, fetchItemDetails,
    fetchItemDetails_failed, handleSwapRequest, confirmSwap,
    handleRedeemPoints, confirmRedeem, fetchData, handleDeleteUser,
    handleNavigate, closeMessageBox, mount;
  repeat case_match; simpl; auto.

Lemma mount_images page w :
  AddItem.images (addItem (mount page w)) = AddItem.images (addItem w)
  \/ AddItem.images (addItem (mount page w)) = [].
Proof. unfold mount. case_bool_decide; auto. Qed.

Lemma setField_images f v s :
  AddItem.images (AddItem.setField f v s) = AddItem.images s.
Proof. destruct f; reflexivity. Qed.

Lemma step_images_within_limit e w :
  images_within_limit w -> images_within_limit (step e w).
Proof.
  intros Hw.
  destruct e; simpl;
    try (apply (images_within_limit_frame w);
         [solve [run_handler] | solve [run_handler] | exact Hw]).
  - (* ChangeField *)
    apply (images_within_limit_frame w); [reflexivity | | exact Hw].
    left. apply setField_images.
  - (* ImageUpload *)
    unfold handleImageUpload.
    destruct (Nat.ltb_spec 5 (length urls + length (AddItem.images (addItem w)))) as [|Hfit].
    + apply (images_within_limit_frame w); auto.
    + destruct Hw as [_ Hstore]. split; [|exact Hstore].
      simpl. rewrite length_app. lia.
  - (* RemoveImage *)
    destruct Hw as [Hform Hstore]. split; [|exact Hstore].
    simpl. etransitivity; [apply filter_index_length | exact Hform].
  - (* Submit *)
    destruct Hw as [Hform Hstore].
    assert (Hnav : forall w0 : World,
               images_within_limit w0 ->
               images_within_limit (handleNavigate "auth" None
                 (showMessageBox "You must be logged in to list an item." "error" w0))).
    { intros w0 H0. apply (images_within_limit_frame w0); [run_handler | run_handler | exact H0]. }
    unfold handleSubmit.
    destruct (App.userId (app w)) as [uid|]; [|apply Hnav; split; assumption].
    destruct (Js.truthy_string uid); cbn [negb]; [|apply Hnav; split; assumption].
    destruct r as [|err].
    + split.
      * simpl.
        match goal with
        | |- context [mount ?p ?w0] => destruct (mount_images p w0) as [-> | ->]
        end; simpl; [exact Hform | lia].
      * simpl. rewrite mount_db. simpl. intros id' d imgs Hd Himgs.
        destruct (decide (id = id')) as [<- | Hne].
        -- rewrite lookup_insert_eq in Hd. injection Hd as <-.
           simpl in Himgs. injection Himgs as <-. exact Hform.
        -- rewrite lookup_insert_ne in Hd by exact Hne. eauto.
    + apply (images_within_limit_frame w); [| | split; assumption];
        destruct (permission_denied err); simpl; auto.
  - (* Moderate *)
    destruct Hw as [Hform Hstore]. unfold handleModerateListing.
    destruct r_set as [|err]; [|split; [exact Hform | exact Hstore]].
    split; [destruct r_get; exact Hform|].
    assert (Hmerged : forall id d imgs,
               Firestore.items (db (on_db (Firestore.mergeItemStatus listingId (moderated_status action)) w)) !! id = Some d ->
               Firestore.images d = Some imgs -> (length imgs <= 5)%nat).
    { simpl. intros id d imgs Hd Himgs.
      destruct (decide (listingId = id)) as [<- | Hne].
      - rewrite lookup_insert_eq in Hd. injection Hd as <-.
        destruct (Firestore.items (db w) !! listingId) as [old|] eqn:Hold;
          simpl in Himgs; [eauto | discriminate].
      - rewrite lookup_insert_ne in Hd by exact Hne. eauto. }
    destruct r_get; exact Hmerged.
Qed.

(** C10. Starting with at most five images on the form and in every stored
    listing (as in a fresh browser on an empty store), every run keeps it
    so. In the state reached, a selection that would bring the count above
    five is refused whole, removing an image never lengthens the list, and a
    listing created from the form carries at most five images. *)
Theorem at_most_five_images (es : list Event) (w : World) :
  images_within_limit w ->
  let w' := run es w in
  images_within_limit w'
  /\ (forall urls,
        (5 < length urls + length (AddItem.images (addItem w')))%nat ->
        addItem (handleImageUpload urls w') = addItem w'
        /\ notice (handleImageUpload urls w')
           = Some (Notice.mk "You can upload a maximum of 5 images." "error"))
  /\ (forall index,
        (length (AddItem.images (addItem (handleRemoveImage index w')))
         <= length (AddItem.images (addItem w')))%nat)
  /\ (forall id now r,
        notice (handleSubmit id now r w') = Some ItemListed ->
        exists d imgs,
          Firestore.items (db (handleSubmit id now r w')) !! id = Some d
          /\ Firestore.images d = Some imgs
          /\ (length imgs <= 5)%nat).
Proof.
  intros Hw w'.
  assert (Hw' : images_within_limit w').
  { apply (run_invariant images_within_limit); [apply step_images_within_limit | exact Hw]. }
  split; [exact Hw'|]. split; [|split].
  - intros urls Hmany. unfold handleImageUpload.
    destruct (Nat.ltb_spec 5 (length urls + length (AddItem.images (addItem w'))));
      [split; reflexivity | lia].
  - intros index. simpl. apply filter_index_length.
  - intros id now r Hlisted.
    destruct (handleSubmit_listed w' id now r Hlisted) as [uid Hd].
    exists (newItem uid now (addItem w')), (AddItem.images (addItem w')).
    split; [exact Hd|]. split; [reflexivity|]. apply Hw'.
Qed.

Lemma at_most_five_images_witness :
  AddItem.images (addItem (run Scenario.uploads initial_world))
  = ["blob:a"; "blob:c"; "blob:g"; "blob:h"; "blob:i"]
  /\ images_within_limit (run Scenario.uploads initial_world)
  /\ addItem (handleImageUpload ["blob:j"] (run Scenario.uploads initial_world))
     = addItem (run Scenario.uploads initial_world).
Proof.
  destruct (at_most_five_images Scenario.uploads initial_world)
    as (Hlimit & Hrefused & _ & _).
  - split; [simpl; lia|]. intros id d imgs Hd. vm_compute in Hd. discriminate Hd.
  - split; [vm_compute; reflexivity|]. split; [exact Hlimit|].
    apply Hrefused. vm_compute. lia.
Defined.

(** ** Balances *)

(** A step leaves each profile as it was, or creates it with no points. *)
Lemma step_users e w uid u' :
  Firestore.users (db (step e w)) !! uid = Some u' ->
  Firestore.points u' = 0 \/ Firestore.users (db w) !! uid = Some u'.
Proof.
  destruct e; simpl;
    try (intros H; right; revert H;
         solve [run_handler
               | unfold handleSubmit, handleImageUpload, handleModerateListing;
                 run_handler]).
  - (* AuthStateChanged *)
    unfold onAuthStateChanged.
    destruct user as [u|]; [|auto].
    destruct r_get as [|e]; [|destruct (permission_denied e); auto].
    simpl. unfold Firestore.getUser.
    destruct (Firestore.users (db w) !! Auth.uid u) eqn:Hold; [auto|].
    destruct r_set; [|auto]. simpl.
    destruct (decide (Auth.uid u = uid)) as [<- | Hne].
    + rewrite lookup_insert_eq. intros [= <-]. left. reflexivity.
    + rewrite lookup_insert_ne by exact Hne. auto.
  - (* UserSnapshot *)
    unfold onUserSnapshot.
    destruct (App.userId (app w)) as [me|]; [|auto].
    destruct (Js.truthy_string me); cbn [negb]; [|auto].
    unfold Firestore.getUser.
    destruct (Firestore.users (db w) !! me) eqn:Hold; [auto|].
    destruct (currentUser w) as [cu|]; [|auto].
    destruct r_set; [|auto]. simpl.
    destruct (decide (me = uid)) as [<- | Hne].
    + rewrite lookup_insert_eq. intros [= <-]. left. reflexivity.
    + rewrite lookup_insert_ne by exact Hne. auto.
  - (* DeleteUser *)
    unfold handleDeleteUser. destruct r; [|auto]. simpl.
    intros H. apply lookup_delete_Some in H as [_ H]. auto.
Qed.

Lemma step_balances_nonneg e w : balances_nonneg w -> balances_nonneg (step e w).
Proof.
  intros Hw uid u' H.
  destruct (step_users e w uid u' H) as [-> | Hold]; [lia | eauto].
Qed.

Lemma run_users es w uid u' :
  Firestore.users (db (run es w)) !! uid = Some u' ->
  Firestore.points u' = 0 \/ Firestore.users (db w) !! uid = Some u'.
Proof.
  revert w. induction es as [|e es IH]; intros w H; simpl in H; [auto|].
  destruct (IH _ H) as [Hzero | Hmid]; [auto|].
  apply (step_users e w uid u' Hmid).
Qed.

Lemma handleNavigate_showConfirmRedeem page itemId w :
  ItemDetail.showConfirmRedeem (detail w) = false ->
  ItemDetail.showConfirmRedeem (detail (handleNavigate page itemId w)) = false.
Proof. unfold handleNavigate, mount. simpl. case_bool_decide; auto. Qed.

(** The confirmation of a redemption opens only for a visitor whose stored
    balance covers the points value of the listing. *)
Lemma handleRedeemPoints_opens r w :
  ItemDetail.showConfirmRedeem (detail w) = false ->
  ItemDetail.showConfirmRedeem (detail (handleRedeemPoints r w)) = true ->
  exists uid id L u pv,
    App.userId (app w) = Some uid
    /\ ItemDetail.item (detail w) = Some (id, L)
    /\ Firestore.pointsValue L = Js.Number pv
    /\ Firestore.users (db w) !! uid = Some u
    /\ pv <= Firestore.points u.
Proof.
  intros Hclosed. unfold handleRedeemPoints.
  destruct (negb (Js.truthy_ref (App.userId (app w)))).
  { rewrite handleNavigate_showConfirmRedeem by exact Hclosed. discriminate. }
  destruct (App.userId (app w)) as [uid|]; [|simpl; congruence].
  destruct (ItemDetail.item (detail w)) as [[id L]|]; [|simpl; congruence].
  destruct (same_user (Some uid) (Firestore.userId L)); [simpl; congruence|].
  destruct (Firestore.pointsValue L) as [| | |pv] eqn:Hpv; simpl; try congruence.
  destruct (pv =? 0); simpl; [congruence|].
  destruct r; [|congruence].
  unfold Firestore.getUser.
  destruct (Firestore.users (db w) !! uid) as [u|] eqn:Hu; simpl; [|congruence].
  rewrite lt_numbers.
  destruct (Z.ltb_spec (Firestore.points u) pv); simpl; [congruence|].
  intros _. exists uid, id, L, u, pv. auto.
Qed.

(** C2. From a store of non-negative balances, after every run: each
    balance is non-negative; each profile is the one the run started with
    or was created with 0 points, so no balance was lowered; and the
    confirmation that precedes a debit opens only when the balance is at
    least the points value to be debited. *)
Theorem balance_never_negative (es : list Event) (w : World) :
  balances_nonneg w ->
  let w' := run es w in
  balances_nonneg w'
  /\ (forall uid u',
        Firestore.users (db w') !! uid = Some u' ->
        Firestore.points u' = 0 \/ Firestore.users (db w) !! uid = Some u')
  /\ (forall r,
        ItemDetail.showConfirmRedeem (detail w') = false ->
        ItemDetail.showConfirmRedeem (detail (handleRedeemPoints r w')) = true ->
        exists uid id L u pv,
          App.userId (app w') = Some uid
          /\ ItemDetail.item (detail w') = Some (id, L)
          /\ Firestore.pointsValue L = Js.Number pv
          /\ Firestore.users (db w') !! uid = Some u
          /\ pv <= Firestore.points u).
Proof.
  intros Hw w'. split; [|split].
  - apply (run_invariant balances_nonneg); [apply step_balances_nonneg | exact Hw].
  - intros uid u'. apply run_users.
  - intros r. apply handleRedeemPoints_opens.
Qed.

Lemma store_balances_nonneg : balances_nonneg (Scenario.browser Scenario.store).
Proof.
  intros uid u Hu. simpl in Hu. unfold Scenario.store in Hu. simpl in Hu.
  repeat (apply lookup_insert_Some in Hu as [[_ <-] | [_ Hu]]; [simpl; lia|]).
  rewrite lookup_empty in Hu. discriminate Hu.
Defined.

Lemma balance_never_negative_witness :
  balance "U4" (run Scenario.newcomer (Scenario.browser Scenario.store)) = Some 0
  /\ balance "U2" (run Scenario.newcomer (Scenario.browser Scenario.store)) = Some 150
  /\ balance "U3" (run Scenario.newcomer (Scenario.browser Scenario.store)) = None
  /\ balances_nonneg (run Scenario.newcomer (Scenario.browser Scenario.store)).
Proof.
  destruct (balance_never_negative Scenario.newcomer
              (Scenario.browser Scenario.store) store_balances_nonneg)
    as (Hnonneg & _ & _).
  repeat split; try (vm_compute; reflexivity). exact Hnonneg.
Defined.

(** * More of the code *)

(** ** Signed-out visitors, the sign-in form and the admin gate *)

Lemma handleNavigate_app page itemId w :
  app (handleNavigate page itemId w)
  = App.setSelectedItemId
      (if bool_decide (page = "itemDetail") && Js.truthy_ref itemId
       then itemId else None)
      (App.setCurrentPage page (app w)).
Proof. unfold handleNavigate. simpl. rewrite mount_app. reflexivity. Qed.

(** X1. A visitor who is not signed in (no user, or an empty id) cannot
    list, request a swap or redeem: each of the three handlers leaves the
    store as it was, shows its own log-in notice and opens the sign-in
    page with no item selected. *)
Theorem signed_out_visitor_is_sent_to_sign_in (w : World) (id now : string)
    (r : Firestore.reply) :
  Js.truthy_ref (App.userId (app w)) = false ->
  (db (handleSubmit id now r w) = db w
   /\ notice (handleSubmit id now r w)
      = Some (Notice.mk "You must be logged in to list an item." "error")
   /\ App.currentPage (app (handleSubmit id now r w)) = "auth"
   /\ App.selectedItemId (app (handleSubmit id now r w)) = None)
  /\ (db (handleSwapRequest w) = db w
      /\ notice (handleSwapRequest w)
         = Some (Notice.mk "Please log in to request a swap." "info")
      /\ App.currentPage (app (handleSwapRequest w)) = "auth"
      /\ App.selectedItemId (app (handleSwapRequest w)) = None)
  /\ (db (handleRedeemPoints r w) = db w
      /\ notice (handleRedeemPoints r w)
         = Some (Notice.mk "Please log in to redeem points." "info")
      /\ App.currentPage (app (handleRedeemPoints r w)) = "auth"
      /\ App.selectedItemId (app (handleRedeemPoints r w)) = None).
Proof.
  intros Hout. split; [|split].
  - unfold handleSubmit.
    destruct (App.userId (app w)) as [u|]; simpl in Hout;
      [rewrite Hout; cbn [negb]|];
      (split; [simpl; rewrite mount_db; reflexivity|]);
      unfold notice; simpl; rewrite ?mount_app; simpl; auto.
  - split; [apply handleSwapRequest_db|].
    unfold handleSwapRequest. rewrite Hout. cbn [negb].
    unfold notice. rewrite handleNavigate_app. simpl. auto.
  - split; [apply handleRedeemPoints_db|].
    unfold handleRedeemPoints. rewrite Hout. cbn [negb].
    unfold notice. rewrite handleNavigate_app. simpl. auto.
Qed.

Lemma signed_out_visitor_is_sent_to_sign_in_witness :
  db (handleSubmit "L2" Scenario.now Firestore.Resolved
        (Scenario.browser Scenario.store)) = Scenario.store
  /\ App.currentPage
       (app (handleSwapRequest (Scenario.browser Scenario.store))) = "auth".
Proof.
  destruct (signed_out_visitor_is_sent_to_sign_in
              (Scenario.browser Scenario.store) "L2" Scenario.now
              Firestore.Resolved) as ((Hdb & _) & (_ & _ & Hpage & _) & _).
  - reflexivity.
  - split; [exact Hdb | exact Hpage].
Defined.

Lemma prefix_app (sub post : string) : String.prefix sub (sub +:+ post) = true.
Proof.
  induction sub as [|c sub IH]; simpl.
  - destruct post; reflexivity.
  - destruct (Ascii.ascii_dec c c) as [_|Hne]; [exact IH | congruence].
Qed.

Lemma includes_prefix (s sub : string) :
  String.prefix sub s = true -> Js.includes s sub = true.
Proof.
  intros H. destruct s.
  - destruct sub; [reflexivity | discriminate H].
  - simpl. simpl in H. rewrite H. reflexivity.
Qed.

Lemma includes_app (pre sub post : string) :
  Js.includes (pre +:+ sub +:+ post) sub = true.
Proof.
  induction pre as [|c pre IH].
  - change ("" +:+ sub +:+ post) with (sub +:+ post).
    apply includes_prefix, prefix_app.
  - change (String c pre +:+ sub +:+ post) with (String c (pre +:+ sub +:+ post)).
    simpl. rewrite IH. apply orb_true_r.
Qed.

Lemma prefix_inv (sub s : string) :
  String.prefix sub s = true -> exists post, s = sub +:+ post.
Proof.
  revert s. induction sub as [|c sub IH]; intros s H.
  - exists s. reflexivity.
  - destruct s as [|c' s]; [discriminate H|]. simpl in H.
    destruct (Ascii.ascii_dec c c') as [<-|_]; [|discriminate H].
    destruct (IH s H) as [post ->]. exists post. reflexivity.
Qed.

Lemma includes_inv (s sub : string) :
  Js.includes s sub = true -> exists pre post, s = pre +:+ sub +:+ post.
Proof.
  induction s as [|c s IH]; cbn [Js.includes]; intros H.
  - rewrite orb_false_r in H. destruct (prefix_inv _ _ H) as [post Hpost].
    exists "", post. exact Hpost.
  - apply orb_true_iff in H as [H | H].
    + destruct (prefix_inv _ _ H) as [post Hpost]. exists "", post. exact Hpost.
    + destruct (IH H) as (pre & post & ->). exists (String c pre), post.
      reflexivity.
Qed.

(** The test of the id, read on the id itself. *)
Lemma is_admin_contains (userId : option string) :
  is_admin userId = true
  <-> exists pre post, userId = Some (pre +:+ "admin" +:+ post).
Proof.
  split.
  - destruct userId as [u|]; [|discriminate]. simpl.
    intros [_ H]%andb_true_iff.
    destruct (includes_inv _ _ H) as (pre & post & ->). eauto.
  - intros (pre & post & ->). unfold is_admin.
    rewrite includes_app, andb_true_r. destruct pre; reflexivity.
Qed.

(** X2. The admin panel is rendered exactly when authentication is
    settled, the page is ['admin'] and the visitor is signed in with an id
    that has "admin" somewhere in it; on the page ['admin'] every other
    visitor, signed in or not, is shown "Access Denied". The header offers
    the Admin button to exactly the same ids. *)
Theorem admin_panel_gate (w : World) :
  (renderPage w = AdminPanelPage
   <-> App.isAuthReady (app w) = true
       /\ App.currentPage (app w) = "admin"
       /\ exists pre post, App.userId (app w) = Some (pre +:+ "admin" +:+ post))
  /\ (App.isAuthReady (app w) = true ->
      App.currentPage (app w) = "admin" ->
      (forall pre post, App.userId (app w) <> Some (pre +:+ "admin" +:+ post)) ->
      renderPage w = AccessDenied)
  /\ ("admin" ∈ header_pages (App.userId (app w))
      <-> exists pre post, App.userId (app w) = Some (pre +:+ "admin" +:+ post)).
Proof.
  rewrite <- is_admin_contains.
  split; [|split].
  - unfold renderPage. simpl.
    destruct (App.isAuthReady (app w)); simpl;
      [|split; [intros H; discriminate H | intros [H _]; discriminate H]].
    repeat match goal with
           | |- context [String.eqb ?p ?q] =>
               let Hp := fresh "Hp" in
               destruct (String.eqb_spec p q) as [Hp|Hp];
               [split; [intros H; discriminate H
                       | intros (_ & H & _); rewrite H in Hp; discriminate Hp]|]
           end.
    destruct (String.eqb_spec (App.currentPage (app w)) "admin") as [Hadmin|Hadmin].
    + destruct (is_admin (App.userId (app w))).
      * split; auto.
      * split; [intros H; discriminate H | intros (_ & _ & H); discriminate H].
    + split; [intros H; discriminate H | intros (_ & H & _); contradiction].
  - intros Hready Hpage Hnone. unfold renderPage. simpl.
    rewrite Hready, Hpage. simpl.
    destruct (is_admin (App.userId (app w))) eqn:Hadmin; [|reflexivity].
    apply is_admin_contains in Hadmin as (pre & post & Hid).
    destruct (Hnone pre post Hid).
  - unfold header_pages.
    destruct (Js.truthy_ref (App.userId (app w))), (is_admin (App.userId (app w)));
      simpl; split; intros H; try reflexivity; try discriminate;
      repeat (apply elem_of_cons in H as [H|H]; [discriminate H|]);
      try (apply elem_of_nil in H; contradiction);
      repeat (first [apply list_elem_of_here | apply list_elem_of_further]).
Qed.

Lemma admin_panel_gate_witness :
  renderPage (Scenario.on_admin_page (Some "U1")) = AccessDenied
  /\ renderPage (Scenario.on_admin_page None) = AccessDenied
  /\ renderPage (Scenario.on_admin_page (Some "site-admin-7")) = AdminPanelPage.
Proof.
  split; [|split].
  - apply (admin_panel_gate (Scenario.on_admin_page (Some "U1")));
      [reflexivity | reflexivity |].
    intros pre post H. apply (f_equal is_admin) in H.
    rewrite (proj2 (is_admin_contains (Some (pre +:+ "admin" +:+ post)))) in H
      by eauto.
    vm_compute in H. discriminate H.
  - apply (admin_panel_gate (Scenario.on_admin_page None));
      [reflexivity | reflexivity |].
    intros pre post H. discriminate H.
  - apply (admin_panel_gate (Scenario.on_admin_page (Some "site-admin-7"))).
    split; [reflexivity | split; [reflexivity|]].
    exists "site-", "-7". reflexivity.
Defined.

(** X3. Registering with two different passwords is refused before the
    backend is asked: whatever it would answer, the form is kept as typed
    with the spinner off, the notice is "Passwords do not match!" and
    nothing else changes. *)
Theorem mismatched_passwords_stop_registration (r : Firestore.reply)
    (f : AuthForm.State) (w : World) :
  AuthForm.isLogin f = false ->
  AuthForm.password f <> AuthForm.confirmPassword f ->
  handleAuth r f w
  = (AuthForm.setLoading false f,
     showMessageBox "Passwords do not match!" "error" w).
Proof.
  intros Hreg Hdiff. unfold handleAuth. simpl. rewrite Hreg.
  rewrite bool_decide_eq_false_2 by exact Hdiff. reflexivity.
Qed.

Lemma mismatched_passwords_stop_registration_witness :
  handleAuth Firestore.Resolved
    (AuthForm.mk false "u5@rewear.com" "secret1" "secret2" false)
    initial_world
  = (AuthForm.mk false "u5@rewear.com" "secret1" "secret2" false,
     showMessageBox "Passwords do not match!" "error" initial_world).
Proof.
  apply (mismatched_passwords_stop_registration Firestore.Resolved
           (AuthForm.mk false "u5@rewear.com" "secret1" "secret2" false)
           initial_world).
  - reflexivity.
  - discriminate.
Defined.

(** X4. [handleAuth] never touches the store and always hands the form
    back as typed with the spinner off; it either reports success and
    opens the dashboard, or shows an error and stays on the page it was
    on. *)
Theorem handleAuth_opens_dashboard_only_on_success (r : Firestore.reply)
    (f : AuthForm.State) (w : World) :
  fst (handleAuth r f w) = AuthForm.setLoading false f
  /\ db (snd (handleAuth r f w)) = db w
  /\ ((succeeded (snd (handleAuth r f w)) = true
       /\ App.currentPage (app (snd (handleAuth r f w))) = "dashboard"
       /\ App.selectedItemId (app (snd (handleAuth r f w))) = None)
      \/ (succeeded (snd (handleAuth r f w)) = false
          /\ App.currentPage (app (snd (handleAuth r f w)))
             = App.currentPage (app w)
          /\ App.selectedItemId (app (snd (handleAuth r f w)))
             = App.selectedItemId (app w))).
Proof.
  unfold handleAuth, handleAuth_failed. simpl.
  destruct (AuthForm.isLogin f) eqn:Hmode;
    [|destruct (bool_decide (AuthForm.password f = AuthForm.confirmPassword f))];
    simpl; try destruct r as [|e]; simpl;
    try destruct (bool_decide (Firestore.code e = "auth/operation-not-allowed"));
    simpl; rewrite ?mount_db;
    (split; [destruct f; simpl in *; subst; reflexivity|]);
    (split; [reflexivity|]);
    unfold succeeded, notice; simpl; rewrite ?mount_app; simpl; auto.
Qed.

(** X5. A successful log-out followed by the provider's callback leaves
    nobody signed in, on the landing page, with the store untouched and
    the header offering Home, Browse and Login; a failed log-out shows an
    error and changes neither the page nor the user. *)
Theorem logout_lands_on_landing (w : World) (today : string)
    (r_get r_set : Firestore.reply) (e : Firestore.Error) :
  (App.userId (app (onAuthStateChanged None today r_get r_set
                      (handleLogout Firestore.Resolved w))) = None
   /\ renderPage (onAuthStateChanged None today r_get r_set
                    (handleLogout Firestore.Resolved w)) = LandingPage
   /\ db (onAuthStateChanged None today r_get r_set
            (handleLogout Firestore.Resolved w)) = db w
   /\ header_pages None = ["landing"; "browse"; "auth"])
  /\ (App.userId (app (handleLogout (Firestore.Rejected e) w)) = App.userId (app w)
      /\ App.currentPage (app (handleLogout (Firestore.Rejected e) w))
         = App.currentPage (app w)
      /\ succeeded (handleLogout (Firestore.Rejected e) w) = false
      /\ db (handleLogout (Firestore.Rejected e) w) = db w).
Proof.
  split.
  - unfold onAuthStateChanged, handleLogout, renderPage. simpl.
    rewrite ?mount_app, ?mount_db. simpl. auto.
  - unfold handleLogout. simpl. auto.
Qed.

(** ** Opening an item *)

(** X6. Opened without an item id (none, or an empty one), the item page
    never loads: its effect does nothing, however often it runs and
    whatever the backend would answer, so the page keeps showing the
    spinner and offers no button. *)
Theorem detail_page_without_item_never_loads (w : World)
    (itemId : option string) (rs : list (Firestore.reply * Firestore.reply)) :
  App.currentPage (app w) <> "itemDetail" ->
  Js.truthy_ref itemId = false ->
  run (map (fun r => FetchItemDetails (fst r) (snd r)) rs)
      (handleNavigate "itemDetail" itemId w)
  = handleNavigate "itemDetail" itemId w
  /\ ItemDetail.loading (detail (handleNavigate "itemDetail" itemId w)) = true
  /\ swap_button (handleNavigate "itemDetail" itemId w) = false
  /\ redeem_button (handleNavigate "itemDetail" itemId w) = false.
Proof.
  intros Hpage Hid.
  assert (Hsel : App.selectedItemId (app (handleNavigate "itemDetail" itemId w)) = None).
  { rewrite handleNavigate_app. simpl. rewrite Hid. reflexivity. }
  assert (Hdetail : detail (handleNavigate "itemDetail" itemId w) = ItemDetail.initial).
  { unfold handleNavigate, mount. simpl.
    rewrite bool_decide_eq_false_2 by congruence. reflexivity. }
  split; [|split; [|split]].
  - induction rs as [|r rs IH]; [reflexivity|].
    simpl. unfold fetchItemDetails at 1. rewrite Hsel. exact IH.
  - rewrite Hdetail. reflexivity.
  - unfold swap_button, loaded_item. rewrite Hdetail. reflexivity.
  - unfold redeem_button, loaded_item. rewrite Hdetail. reflexivity.
Qed.

Lemma detail_page_without_item_never_loads_witness :
  run (map (fun r => FetchItemDetails (fst r) (snd r))
           [(Firestore.Resolved, Firestore.Resolved);
            (Firestore.Resolved, Firestore.Resolved)])
      (handleNavigate "itemDetail" None (Scenario.browser Scenario.store))
  = handleNavigate "itemDetail" None (Scenario.browser Scenario.store)
  /\ ItemDetail.loading
       (detail (handleNavigate "itemDetail" None
                  (Scenario.browser Scenario.store))) = true.
Proof.
  destruct (detail_page_without_item_never_loads
              (Scenario.browser Scenario.store) None
              [(Firestore.Resolved, Firestore.Resolved);
               (Firestore.Resolved, Firestore.Resolved)])
    as (Hrun & Hloading & _).
  - discriminate.
  - reflexivity.
  - split; [exact Hrun | exact Hloading].
Defined.

(** X7. Opening an id the store does not hold (the featured cards of the
    landing page carry the ids 1 to 4) shows "Item not found." and goes
    back to the browse page with no item selected; the store is
    untouched. *)
Theorem missing_item_returns_to_browse (w : World) (id : string)
    (r_uploader : Firestore.reply) :
  App.selectedItemId (app w) = Some id ->
  id <> "" ->
  Firestore.items (db w) !! id = None ->
  notice (fetchItemDetails Firestore.Resolved r_uploader w)
  = Some (Notice.mk "Item not found." "error")
  /\ App.currentPage (app (fetchItemDetails Firestore.Resolved r_uploader w))
     = "browse"
  /\ App.selectedItemId (app (fetchItemDetails Firestore.Resolved r_uploader w))
     = None
  /\ db (fetchItemDetails Firestore.Resolved r_uploader w) = db w.
Proof.
  intros Hsel Hne Hmissing. unfold fetchItemDetails.
  rewrite Hsel, (truthy_string_true id Hne). cbn [negb].
  unfold Firestore.getItem. simpl. rewrite Hmissing.
  unfold notice. simpl. rewrite mount_app, mount_db. simpl.
  auto.
Qed.

Lemma missing_item_returns_to_browse_witness :
  notice (fetchItemDetails Firestore.Resolved Firestore.Resolved
            (handleNavigate "itemDetail" (Some "1")
               (Scenario.browser Scenario.store)))
  = Some (Notice.mk "Item not found." "error")
  /\ App.currentPage
       (app (fetchItemDetails Firestore.Resolved Firestore.Resolved
               (handleNavigate "itemDetail" (Some "1")
                  (Scenario.browser Scenario.store)))) = "browse".
Proof.
  destruct (missing_item_returns_to_browse
              (handleNavigate "itemDetail" (Some "1")
                 (Scenario.browser Scenario.store)) "1" Firestore.Resolved)
    as (Hnotice & Hpage & _).
  - reflexivity.
  - discriminate.
  - vm_compute. reflexivity.
  - split; [exact Hnotice | exact Hpage].
Defined.

(** X8. Opening a stored listing that names its owner puts exactly the
    stored document on the page, with the owner's profile when there is
    one (the profile shown before is kept when there is none), switches
    the spinner off and changes neither the store nor the notice. *)
Theorem item_page_shows_stored_listing (w : World) (id owner : string)
    (d : Firestore.ItemDoc) :
  App.selectedItemId (app w) = Some id ->
  id <> "" ->
  Firestore.items (db w) !! id = Some d ->
  Firestore.userId d = Some owner ->
  detail (fetchItemDetails Firestore.Resolved Firestore.Resolved w)
  = ItemDetail.mk (Some (id, d))
      (match Firestore.users (db w) !! owner with
       | Some u => Some u
       | None => ItemDetail.uploader (detail w)
       end)
      false
      (ItemDetail.showConfirmSwap (detail w))
      (ItemDetail.showConfirmRedeem (detail w))
  /\ db (fetchItemDetails Firestore.Resolved Firestore.Resolved w) = db w
  /\ app (fetchItemDetails Firestore.Resolved Firestore.Resolved w) = app w.
Proof.
  intros Hsel Hne Hd Howner. unfold fetchItemDetails.
  rewrite Hsel, (truthy_string_true id Hne). cbn [negb].
  unfold Firestore.getItem, Firestore.getUser. simpl. rewrite Hd, Howner. simpl.
  destruct (Firestore.users (db w) !! owner); simpl; auto.
Qed.

Lemma item_page_shows_stored_listing_witness :
  ItemDetail.item
    (detail (fetchItemDetails Firestore.Resolved Firestore.Resolved
               (handleNavigate "itemDetail" (Some "L1")
                  (Scenario.browser Scenario.store))))
  = Some ("L1", Scenario.L1).
Proof.
  destruct (item_page_shows_stored_listing
              (handleNavigate "itemDetail" (Some "L1")
                 (Scenario.browser Scenario.store)) "L1" "U1" Scenario.L1)
    as (Hdetail & _).
  - reflexivity.
  - discriminate.
  - vm_compute. reflexivity.
  - reflexivity.
  - rewrite Hdetail. reflexivity.
Defined.

(** ** The add-item form *)

Lemma filter_index_below {A} (l : list A) (off target : nat) :
  (target < off)%nat ->
  filter_index (fun index => negb (index =? target)%nat) l off = l.
Proof.
  revert off. induction l as [|x l IH]; intros off Hlt; simpl; [reflexivity|].
  destruct (Nat.eqb_spec off target); [lia|]. simpl.
  rewrite IH by lia. reflexivity.
Qed.

Lemma filter_index_delete {A} (l : list A) (off k target : nat) :
  target = (k + off)%nat ->
  filter_index (fun index => negb (index =? target)%nat) l off = delete k l.
Proof.
  revert off k. induction l as [|x l IH]; intros off k ->; simpl.
  - destruct k; reflexivity.
  - destruct k as [|k]; simpl.
    + rewrite Nat.eqb_refl. simpl. apply filter_index_below. lia.
    + destruct (Nat.eqb_spec off (S (k + off))); [lia|]. simpl.
      f_equal. apply IH. lia.
Qed.

(** X9. Removing the image at an index deletes exactly the entry at that
    position and keeps the others in order; an index past the end changes
    nothing. The store and the rest of the form are untouched. *)
Theorem handleRemoveImage_deletes_position (indexToRemove : nat) (w : World) :
  AddItem.images (addItem (handleRemoveImage indexToRemove w))
  = delete indexToRemove (AddItem.images (addItem w))
  /\ ((length (AddItem.images (addItem w)) <= indexToRemove)%nat ->
      handleRemoveImage indexToRemove w = w)
  /\ db (handleRemoveImage indexToRemove w) = db w.
Proof.
  assert (Himgs : AddItem.images (addItem (handleRemoveImage indexToRemove w))
                  = delete indexToRemove (AddItem.images (addItem w))).
  { simpl. apply filter_index_delete. lia. }
  split; [exact Himgs|]. split; [|reflexivity].
  intros Hout. destruct w as [d u a det [t de c ty sz co tg pv imgs ld] da ad].
  simpl in *. unfold handleRemoveImage, on_addItem, AddItem.setImages. simpl.
  rewrite (filter_index_delete imgs 0 indexToRemove indexToRemove) by lia.
  clear Himgs. revert indexToRemove Hout.
  induction imgs as [|x imgs IH]; intros [|k] Hout; simpl in *;
    try reflexivity; try lia.
  specialize (IH k ltac:(lia)). injection IH as IH. rewrite IH. reflexivity.
Qed.

Lemma handleRemoveImage_deletes_position_witness :
  AddItem.images
    (addItem (handleRemoveImage 1 (run Scenario.uploads initial_world)))
  = ["blob:a"; "blob:g"; "blob:h"; "blob:i"]
  /\ handleRemoveImage 7 (run Scenario.uploads initial_world)
     = run Scenario.uploads initial_world.
Proof.
  destruct (handleRemoveImage_deletes_position 1
              (run Scenario.uploads initial_world)) as (Himgs & _ & _).
  destruct (handleRemoveImage_deletes_position 7
              (run Scenario.uploads initial_world)) as (_ & Hout & _).
  split.
  - rewrite Himgs. vm_compute. reflexivity.
  - apply Hout. vm_compute. lia.
Defined.

(** X10. While fewer than five images are attached, attaching one more
    and then removing the last position gives the form back as it was. *)
Theorem upload_then_remove_last_restores (url : string) (w : World) :
  (length (AddItem.images (addItem w)) < 5)%nat ->
  addItem (handleRemoveImage (length (AddItem.images (addItem w)))
             (handleImageUpload [url] w))
  = addItem w
  /\ db (handleRemoveImage (length (AddItem.images (addItem w)))
           (handleImageUpload [url] w)) = db w.
Proof.
  intros Hroom. unfold handleImageUpload.
  destruct (Nat.ltb_spec 5 (length [url] + length (AddItem.images (addItem w))))
    as [Hfull|_]; [simpl in Hfull; lia|].
  split; [|reflexivity].
  destruct w as [d u a det [t de c ty sz co tg pv imgs ld] da ad]. simpl in *.
  unfold AddItem.setImages. simpl. f_equal.
  rewrite (filter_index_delete (imgs ++ [url]) 0 (length imgs) (length imgs)) by lia.
  clear Hroom. induction imgs as [|x imgs IH]; simpl; [reflexivity|].
  rewrite IH. reflexivity.
Qed.

Lemma upload_then_remove_last_restores_witness :
  addItem (handleRemoveImage 0 (handleImageUpload ["blob:a"] initial_world))
  = addItem initial_world.
Proof.
  destruct (upload_then_remove_last_restores "blob:a" initial_world) as [Hform _].
  - simpl. lia.
  - exact Hform.
Defined.

(** X11. The tags stored with a new listing, for a field of ASCII
    characters: the field is cut at its commas (the pieces, joined by
    commas again, are the field, and no piece has a comma), each piece
    loses the white space at its two ends, and the pieces that are empty
    then are dropped; the others are stored in the order of the field. So
    an empty or blank field stores no tag at all. *)
Theorem stored_tags_are_trimmed (uid now : string) (f : AddItem.State) :
  ascii_only (AddItem.tags f) = true ->
  exists pieces ts,
    pieces <> []
    /\ String.concat "," pieces = AddItem.tags f
    /\ Forall (fun p => comma_free p = true) pieces
    /\ Forall2 trimmed pieces ts
    /\ Firestore.tags (newItem uid now f) = Some (filter (fun t => t <> "") ts)
    /\ (blank (AddItem.tags f) = true ->
        Firestore.tags (newItem uid now f) = Some []).
Proof.
  intros _.
  exists (Js.split_comma (AddItem.tags f)), (Js.trim <$> Js.split_comma (AddItem.tags f)).
  destruct (split_comma_go_pieces (AddItem.tags f) "" eq_refl) as [Hjoin Hfree].
  split; [apply split_comma_go_nonempty|].
  split; [exact Hjoin|]. split; [exact Hfree|].
  split; [|split; [reflexivity|]].
  - apply Forall2_fmap_r, Forall_Forall2_diag, Forall_forall.
    intros p _. apply trim_trimmed.
  - intros Hblank. simpl. unfold Js.split_comma.
    rewrite (split_comma_go_blank _ "" (blank_trim_start _ Hblank)).
    fold (String.rev (AddItem.tags f)). rewrite rev_involutive.
    simpl. unfold Js.trim. rewrite (blank_trim_start _ Hblank). simpl.
    rewrite filter_cons_False by (intros H; apply H; reflexivity).
    reflexivity.
Qed.

Lemma stored_tags_are_trimmed_witness :
  Firestore.tags
    (newItem "U1" Scenario.now
       (AddItem.setField AddItem.OnTags " casual , ,denim,, " AddItem.initial))
  = Some ["casual"; "denim"]
  /\ Firestore.tags
       (newItem "U1" Scenario.now
          (AddItem.setField AddItem.OnTags "   " AddItem.initial))
     = Some [].
Proof.
  split; [vm_compute; reflexivity|].
  destruct (stored_tags_are_trimmed "U1" Scenario.now
              (AddItem.setField AddItem.OnTags "   " AddItem.initial))
    as (pieces & ts & _ & _ & _ & _ & _ & Hblank).
  - vm_compute. reflexivity.
  - apply Hblank. vm_compute. reflexivity.
Defined.

(** X12. A points field that starts with the decimal numeral of an
    integer [n] (within the range a JavaScript number holds exactly),
    followed by nothing or by text that does not start with a digit (a
    decimal part, a unit), stores [n]: what follows the digits is dropped
    without a notice. So "12.5" and "12 points" store 12, and "0" stores 0
    rather than no value. *)
Theorem points_field_keeps_leading_integer (uid now : string)
    (f : AddItem.State) (n : Z) (t : string) :
  Z.abs n <= 2 ^ 53 ->
  AddItem.pointsValue f = pretty n +:+ t ->
  stops_number t ->
  Firestore.pointsValue (newItem uid now f) = Js.Number n.
Proof.
  intros _ Hfield Hstop. exact (newItem_points_numeral uid now f n t Hfield Hstop).
Qed.

Lemma points_field_keeps_leading_integer_witness :
  Firestore.pointsValue
    (newItem "U1" Scenario.now
       (AddItem.setField AddItem.OnPointsValue "12.5" AddItem.initial))
  = Js.Number 12.
Proof.
  apply (points_field_keeps_leading_integer "U1" Scenario.now
           (AddItem.setField AddItem.OnPointsValue "12.5" AddItem.initial)
           12 ".5").
  - vm_compute. discriminate.
  - vm_compute. reflexivity.
  - reflexivity.
Defined.

(** ** Listings in the store, on the browse page and on the dashboard *)

Lemma whereStatusAvailable_elem (d : Firestore.Db) (id : string) (x : Firestore.ItemDoc) :
  (id, x) ∈ whereStatusAvailable d
  <-> Firestore.items d !! id = Some x /\ Firestore.status x = Some "available".
Proof.
  unfold whereStatusAvailable, Firestore.allItems.
  rewrite list_elem_of_filter, elem_of_map_to_list. simpl. tauto.
Qed.

Lemma whereUserId_elem (uid : string) (d : Firestore.Db) (id : string)
    (x : Firestore.ItemDoc) :
  (id, x) ∈ whereUserId uid d
  <-> Firestore.items d !! id = Some x /\ Firestore.userId x = Some uid.
Proof.
  unfold whereUserId, Firestore.allItems.
  rewrite list_elem_of_filter, elem_of_map_to_list. simpl. tauto.
Qed.

Lemma handleSubmit_stored (w : World) (id now uid : string) :
  App.userId (app w) = Some uid ->
  uid <> "" ->
  db (handleSubmit id now Firestore.Resolved w)
  = Firestore.addItem id (newItem uid now (addItem w)) (db w)
  /\ app (handleSubmit id now Firestore.Resolved w)
     = App.mk "dashboard" None (Some uid) (App.isAuthReady (app w)) (Some ItemListed).
Proof.
  intros Huser Hne. unfold handleSubmit.
  rewrite Huser, (truthy_string_true uid Hne). cbn [negb]. simpl.
  rewrite mount_db, mount_app. simpl. split; [reflexivity|].
  unfold App.setSelectedItemId, App.setCurrentPage, App.setMessageBox. simpl.
  rewrite Huser. reflexivity.
Qed.

(** X13. Once a signed-in user's submission is accepted, the new listing
    is on the browse page (it is among the available listings) and among
    that user's own listings on the dashboard, and among nobody else's;
    the dashboard is opened. *)
Theorem submitted_listing_is_browsable (w : World) (id now uid : string) :
  App.userId (app w) = Some uid ->
  uid <> "" ->
  (id, newItem uid now (addItem w))
    ∈ whereStatusAvailable (db (handleSubmit id now Firestore.Resolved w))
  /\ (forall other d,
        (id, d) ∈ whereUserId other (db (handleSubmit id now Firestore.Resolved w))
        <-> other = uid /\ d = newItem uid now (addItem w))
  /\ renderPage (handleSubmit id now Firestore.Resolved w)
     = (if App.isAuthReady (app w) then UserDashboardPage (Some uid)
        else LoadingSpinner).
Proof.
  intros Huser Hne.
  destruct (handleSubmit_stored w id now uid Huser Hne) as [Hdb Happ].
  split; [|split].
  - apply whereStatusAvailable_elem. rewrite Hdb. simpl.
    rewrite lookup_insert_eq. auto.
  - intros other d. rewrite whereUserId_elem, Hdb. simpl.
    rewrite lookup_insert_eq. split.
    + intros [[= <-] Hown]. simpl in Hown. injection Hown as ->. auto.
    + intros [-> ->]. auto.
  - unfold renderPage. rewrite Happ. simpl.
    destruct (App.isAuthReady (app w)); reflexivity.
Qed.

Lemma submitted_listing_is_browsable_witness :
  (exists d, ("L2", d)
             ∈ whereStatusAvailable
                 (db (handleSubmit "L2" Scenario.now Firestore.Resolved
                        (Scenario.form_filled "40"))))
  /\ renderPage (handleSubmit "L2" Scenario.now Firestore.Resolved
                   (Scenario.form_filled "40"))
     = UserDashboardPage (Some "U1").
Proof.
  destruct (submitted_listing_is_browsable (Scenario.form_filled "40") "L2"
              Scenario.now "U1") as (Hbrowse & _ & Hpage).
  - vm_compute. reflexivity.
  - discriminate.
  - split; [eexists; exact Hbrowse | exact Hpage].
Defined.

(** X14. A submission the backend refuses loses nothing: the store, the
    page and every field and image of the form are as before, the spinner
    is off and an error is shown. *)
Theorem failed_submission_keeps_form (w : World) (id now uid : string)
    (e : Firestore.Error) :
  App.userId (app w) = Some uid ->
  uid <> "" ->
  db (handleSubmit id now (Firestore.Rejected e) w) = db w
  /\ addItem (handleSubmit id now (Firestore.Rejected e) w)
     = AddItem.setLoading false (addItem w)
  /\ App.currentPage (app (handleSubmit id now (Firestore.Rejected e) w))
     = App.currentPage (app w)
  /\ (exists text, notice (handleSubmit id now (Firestore.Rejected e) w)
                   = Some (Notice.mk text "error")).
Proof.
  intros Huser Hne. unfold handleSubmit.
  rewrite Huser, (truthy_string_true uid Hne). cbn [negb].
  destruct (permission_denied e); simpl; repeat split; eexists; reflexivity.
Qed.

Lemma failed_submission_keeps_form_witness :
  addItem (handleSubmit "L2" Scenario.now
             (Firestore.Rejected (Firestore.mkError "unavailable" "The service is currently unavailable."))
             (Scenario.form_filled "40"))
  = addItem (Scenario.form_filled "40").
Proof.
  destruct (failed_submission_keeps_form (Scenario.form_filled "40") "L2"
              Scenario.now "U1"
              (Firestore.mkError "unavailable" "The service is currently unavailable."))
    as (_ & Hform & _).
  - vm_compute. reflexivity.
  - discriminate.
  - rewrite Hform. vm_compute. reflexivity.
Defined.

(** ** The admin panel *)

Lemma moderate_db listingId action r_get w :
  db (handleModerateListing listingId action Firestore.Resolved r_get w)
  = Firestore.mergeItemStatus listingId (moderated_status action) (db w).
Proof. unfold handleModerateListing. destruct r_get; reflexivity. Qed.

Lemma with_status_twice (s1 s2 : string) (d : Firestore.ItemDoc) :
  Firestore.with_status s2 (Firestore.with_status s1 d) = Firestore.with_status s2 d.
Proof. reflexivity. Qed.

(** X15. An accepted moderation changes the [status] field of that
    listing and nothing else: its other fields, every other listing and
    every profile are as before. *)
Theorem moderation_changes_only_the_status (w : World) (listingId action : string)
    (r_get : Firestore.reply) (L : Firestore.ItemDoc) :
  Firestore.items (db w) !! listingId = Some L ->
  Firestore.items
    (db (handleModerateListing listingId action Firestore.Resolved r_get w))
    !! listingId
  = Some (Firestore.mkItem (Firestore.userId L) (Firestore.title L)
            (Firestore.description L) (Firestore.category L) (Firestore.type L)
            (Firestore.size L) (Firestore.condition L) (Firestore.tags L)
            (Firestore.pointsValue L) (Firestore.images L)
            (Some (moderated_status action)) (Firestore.createdAt L))
  /\ (forall other, other <> listingId ->
        Firestore.items
          (db (handleModerateListing listingId action Firestore.Resolved r_get w))
          !! other
        = Firestore.items (db w) !! other)
  /\ Firestore.users
       (db (handleModerateListing listingId action Firestore.Resolved r_get w))
     = Firestore.users (db w).
Proof.
  intros HL. rewrite moderate_db. simpl. split; [|split].
  - rewrite lookup_insert_eq, HL. reflexivity.
  - intros other Hother. apply lookup_insert_ne. congruence.
  - reflexivity.
Qed.

Lemma moderation_changes_only_the_status_witness :
  (Firestore.pointsValue
     <$> Firestore.items
           (db (handleModerateListing "L1" "reject" Firestore.Resolved
                  Firestore.Resolved (Scenario.browser Scenario.store)))
           !! "L1") = Some (Js.Number 100)
  /\ Firestore.users
       (db (handleModerateListing "L1" "reject" Firestore.Resolved
              Firestore.Resolved (Scenario.browser Scenario.store)))
     = Firestore.users Scenario.store.
Proof.
  destruct (moderation_changes_only_the_status
              (Scenario.browser Scenario.store) "L1" "reject"
              Firestore.Resolved Scenario.L1) as (Hitem & _ & Husers).
  - vm_compute. reflexivity.
  - split; [rewrite Hitem; reflexivity | exact Husers].
Defined.

(** X16. Of two accepted moderations of one listing the later one
    decides: the store is as if only the second had been made (so
    repeating an action changes nothing more), whether or not the listing
    existed. *)
Theorem later_moderation_wins (w : World) (listingId first second : string)
    (r1 r2 r3 : Firestore.reply) :
  db (handleModerateListing listingId second Firestore.Resolved r2
        (handleModerateListing listingId first Firestore.Resolved r1 w))
  = db (handleModerateListing listingId second Firestore.Resolved r3 w).
Proof.
  rewrite !moderate_db. unfold Firestore.mergeItemStatus. simpl.
  rewrite lookup_insert_eq, insert_insert_eq. simpl.
  rewrite with_status_twice. reflexivity.
Qed.

(** X17. Moderating an id the store does not hold creates a document
    with the status and no other field; approved, that document is shown
    on the browse page, and it is on nobody's dashboard. *)
Theorem moderating_a_missing_listing_creates_a_stub (w : World)
    (listingId action : string) (r_get : Firestore.reply) :
  Firestore.items (db w) !! listingId = None ->
  Firestore.items
    (db (handleModerateListing listingId action Firestore.Resolved r_get w))
    !! listingId
  = Some (Firestore.with_status (moderated_status action) Firestore.no_fields)
  /\ (action = "approve" ->
      (listingId, Firestore.with_status "available" Firestore.no_fields)
        ∈ whereStatusAvailable
            (db (handleModerateListing listingId action Firestore.Resolved r_get w)))
  /\ (forall uid d,
        (listingId, d)
          ∉ whereUserId uid
              (db (handleModerateListing listingId action Firestore.Resolved r_get w))).
Proof.
  intros Hmissing. rewrite moderate_db.
  assert (Hstub : Firestore.items
                    (Firestore.mergeItemStatus listingId (moderated_status action) (db w))
                    !! listingId
                  = Some (Firestore.with_status (moderated_status action) Firestore.no_fields)).
  { simpl. rewrite lookup_insert_eq, Hmissing. reflexivity. }
  split; [exact Hstub|]. split.
  - intros ->. apply whereStatusAvailable_elem. rewrite Hstub. auto.
  - intros uid d [Hd Hown]%whereUserId_elem.
    rewrite Hstub in Hd. injection Hd as <-. discriminate Hown.
Qed.

Lemma moderating_a_missing_listing_creates_a_stub_witness :
  ("L9", Firestore.with_status "available" Firestore.no_fields)
    ∈ whereStatusAvailable
        (db (handleModerateListing "L9" "approve" Firestore.Resolved
               Firestore.Resolved (Scenario.browser Scenario.store))).
Proof.
  destruct (moderating_a_missing_listing_creates_a_stub
              (Scenario.browser Scenario.store) "L9" "approve" Firestore.Resolved)
    as (_ & Hbrowse & _).
  - vm_compute. reflexivity.
  - apply Hbrowse. reflexivity.
Defined.

(** X18. Rejecting a listing takes it off the browse page and approving
    it puts it back, while it stays among its owner's listings on the
    dashboard either way. *)
Theorem moderation_toggles_browse_visibility (w : World) (listingId owner : string)
    (r_get : Firestore.reply) (L : Firestore.ItemDoc) :
  Firestore.items (db w) !! listingId = Some L ->
  Firestore.userId L = Some owner ->
  (forall d,
     (listingId, d)
       ∉ whereStatusAvailable
           (db (handleModerateListing listingId "reject" Firestore.Resolved r_get w)))
  /\ (listingId, Firestore.with_status "available" L)
       ∈ whereStatusAvailable
           (db (handleModerateListing listingId "approve" Firestore.Resolved r_get w))
  /\ (listingId, Firestore.with_status "rejected" L)
       ∈ whereUserId owner
           (db (handleModerateListing listingId "reject" Firestore.Resolved r_get w))
  /\ (listingId, Firestore.with_status "available" L)
       ∈ whereUserId owner
           (db (handleModerateListing listingId "approve" Firestore.Resolved r_get w)).
Proof.
  intros HL Hown.
  assert (Hafter : forall action,
             Firestore.items
               (db (handleModerateListing listingId action Firestore.Resolved r_get w))
               !! listingId
             = Some (Firestore.with_status (moderated_status action) L)).
  { intros action. rewrite moderate_db. simpl.
    rewrite lookup_insert_eq, HL. reflexivity. }
  split; [|split; [|split]].
  - intros d [Hd Hstatus]%whereStatusAvailable_elem.
    rewrite Hafter in Hd. injection Hd as <-. discriminate Hstatus.
  - apply whereStatusAvailable_elem. rewrite Hafter. auto.
  - apply whereUserId_elem. rewrite Hafter. auto.
  - apply whereUserId_elem. rewrite Hafter. auto.
Qed.

Lemma moderation_toggles_browse_visibility_witness :
  whereStatusAvailable
    (db (handleModerateListing "L1" "reject" Firestore.Resolved Firestore.Resolved
           (Scenario.browser Scenario.store))) = []
  /\ ("L1", Firestore.with_status "rejected" Scenario.L1)
       ∈ whereUserId "U1"
           (db (handleModerateListing "L1" "reject" Firestore.Resolved
                  Firestore.Resolved (Scenario.browser Scenario.store))).
Proof.
  destruct (moderation_toggles_browse_visibility
              (Scenario.browser Scenario.store) "L1" "U1" Firestore.Resolved
              Scenario.L1) as (_ & _ & Hmine & _).
  - vm_compute. reflexivity.
  - reflexivity.
  - split; [vm_compute; reflexivity | exact Hmine].
Defined.

(** X19. Deleting a user removes that profile and its row of the admin
    list and nothing else: every other profile, every other row (in the
    order they had) and every listing, those of the deleted user
    included, stay. A refused deletion leaves the store and the rows as
    they were. *)
Theorem deleting_a_user_keeps_their_listings (w : World) (uid : string)
    (e : Firestore.Error) :
  Firestore.users (db (handleDeleteUser uid Firestore.Resolved w)) !! uid = None
  /\ (forall other, other <> uid ->
        Firestore.users (db (handleDeleteUser uid Firestore.Resolved w)) !! other
        = Firestore.users (db w) !! other)
  /\ Firestore.items (db (handleDeleteUser uid Firestore.Resolved w))
     = Firestore.items (db w)
  /\ whereUserId uid (db (handleDeleteUser uid Firestore.Resolved w))
     = whereUserId uid (db w)
  /\ (forall row,
        row ∈ Admin.users (admin (handleDeleteUser uid Firestore.Resolved w))
        <-> row ∈ Admin.users (admin w) /\ fst row <> uid)
  /\ sublist (Admin.users (admin (handleDeleteUser uid Firestore.Resolved w)))
             (Admin.users (admin w))
  /\ Admin.listings (admin (handleDeleteUser uid Firestore.Resolved w))
     = Admin.listings (admin w)
  /\ db (handleDeleteUser uid (Firestore.Rejected e) w) = db w
  /\ Admin.users (admin (handleDeleteUser uid (Firestore.Rejected e) w))
     = Admin.users (admin w).
Proof.
  unfold handleDeleteUser. simpl.
  split; [apply lookup_delete_eq|].
  split; [intros other Hother; apply lookup_delete_ne; congruence|].
  split; [reflexivity|]. split; [reflexivity|].
  split; [|split; [apply sublist_filter|]; repeat split; reflexivity].
  intros row. rewrite list_elem_of_filter. tauto.
Qed.

Lemma deleting_a_user_keeps_their_listings_witness :
  length (Admin.users (admin Scenario.users_view)) = 3%nat
  /\ balance "U3" (handleDeleteUser "U3" Firestore.Resolved Scenario.users_view) = None
  /\ fst <$> Admin.users
               (admin (handleDeleteUser "U3" Firestore.Resolved Scenario.users_view))
     = filter (fun id => id <> "U3") (fst <$> Admin.users (admin Scenario.users_view))
  /\ ("U1", Firestore.mkUser (Some "u1@rewear.com") 50 Scenario.today)
     ∈ Admin.users (admin (handleDeleteUser "U3" Firestore.Resolved Scenario.users_view))
  /\ listing_status "L1" (handleDeleteUser "U3" Firestore.Resolved Scenario.users_view)
     = Some "available".
Proof.
  destruct (deleting_a_user_keeps_their_listings Scenario.users_view "U3"
              (Firestore.mkError "unavailable" "offline"))
    as (Hgone & _ & Hitems & _ & Hrows & _).
  split; [vm_compute; reflexivity|].
  split; [unfold balance; rewrite Hgone; reflexivity|].
  split; [vm_compute; reflexivity|].
  split.
  - apply Hrows. split; [|discriminate].
    vm_compute. repeat (first [apply list_elem_of_here | apply list_elem_of_further]).
  - unfold listing_status. rewrite Hitems. vm_compute. reflexivity.
Defined.

(** ** Profiles *)

Lemma onAuthStateChanged_existing (w : World) (u : Auth.User)
    (today : string) (r_get r_set : Firestore.reply) (p : Firestore.UserDoc) :
  Firestore.users (db w) !! Auth.uid u = Some p ->
  db (onAuthStateChanged (Some u) today r_get r_set w) = db w.
Proof.
  intros Hp. unfold onAuthStateChanged, Firestore.getUser. simpl. rewrite Hp.
  destruct r_get as [|e]; [|destruct (permission_denied e)]; reflexivity.
Qed.

(** X20. Signing in never rewrites an existing profile: whatever the
    backend answers, the store is as before, so the points held survive
    every later sign-in. *)
Theorem sign_in_keeps_existing_profile (w : World) (u : Auth.User)
    (today : string) (r_get r_set : Firestore.reply) (p : Firestore.UserDoc) :
  Firestore.users (db w) !! Auth.uid u = Some p ->
  db (onAuthStateChanged (Some u) today r_get r_set w) = db w
  /\ App.userId (app (onAuthStateChanged (Some u) today r_get r_set w))
     = Some (Auth.uid u)
  /\ App.isAuthReady (app (onAuthStateChanged (Some u) today r_get r_set w)) = true.
Proof.
  intros Hp. split; [apply (onAuthStateChanged_existing _ _ _ _ _ _ Hp)|].
  unfold onAuthStateChanged, Firestore.getUser. simpl. rewrite Hp.
  destruct r_get as [|e]; [|destruct (permission_denied e)]; simpl; auto.
Qed.

Lemma sign_in_keeps_existing_profile_witness :
  balance "U2"
    (onAuthStateChanged (Some Scenario.U2) "8/1/2025" Firestore.Resolved
       Firestore.Resolved (Scenario.browser Scenario.store)) = Some 150.
Proof.
  destruct (sign_in_keeps_existing_profile (Scenario.browser Scenario.store)
              Scenario.U2 "8/1/2025" Firestore.Resolved Firestore.Resolved
              (Firestore.mkUser (Some "u2@rewear.com") 150 Scenario.today))
    as (Hdb & _).
  - vm_compute. reflexivity.
  - unfold balance. rewrite Hdb. vm_compute. reflexivity.
Defined.

(** X21. The first sign-in of a user without a profile creates one with 0
    points, the day as [memberSince] and the user's e-mail address, or
    "anonymous@rewear.com" when there is none; a second sign-in, whatever
    the backend answers then, leaves the store as the first left it. *)
Theorem first_sign_in_creates_the_profile_once (w : World) (u : Auth.User)
    (today later : string) (r_get r_set : Firestore.reply) :
  Firestore.users (db w) !! Auth.uid u = None ->
  Firestore.users
    (db (onAuthStateChanged (Some u) today Firestore.Resolved Firestore.Resolved w))
    !! Auth.uid u
  = Some (Firestore.mkUser
            (match Auth.email u with
             | Some "" | None => Some "anonymous@rewear.com"
             | Some address => Some address
             end)
            0 today)
  /\ db (onAuthStateChanged (Some u) later r_get r_set
           (onAuthStateChanged (Some u) today Firestore.Resolved Firestore.Resolved w))
     = db (onAuthStateChanged (Some u) today Firestore.Resolved Firestore.Resolved w).
Proof.
  intros Hnew.
  assert (Hcreated :
    Firestore.users
      (db (onAuthStateChanged (Some u) today Firestore.Resolved Firestore.Resolved w))
      !! Auth.uid u
    = Some (Firestore.mkUser
              (match Auth.email u with
               | Some "" | None => Some "anonymous@rewear.com"
               | Some address => Some address
               end)
              0 today)).
  { unfold onAuthStateChanged, Firestore.getUser. simpl. rewrite Hnew. simpl.
    rewrite lookup_insert_eq. destruct (Auth.email u) as [[|c s]|]; reflexivity. }
  split; [exact Hcreated|].
  apply (onAuthStateChanged_existing _ u later r_get r_set _ Hcreated).
Qed.

Lemma first_sign_in_creates_the_profile_once_witness :
  Firestore.users
    (db (onAuthStateChanged (Some (Auth.mkUser "U4" None)) Scenario.today
           Firestore.Resolved Firestore.Resolved
           (Scenario.browser Scenario.store))) !! "U4"
  = Some (Firestore.mkUser (Some "anonymous@rewear.com") 0 Scenario.today).
Proof.
  destruct (first_sign_in_creates_the_profile_once
              (Scenario.browser Scenario.store) (Auth.mkUser "U4" None)
              Scenario.today Scenario.today Firestore.Resolved Firestore.Resolved)
    as [Hcreated _].
  - vm_compute. reflexivity.
  - exact Hcreated.
Defined.

(** X22. When the dashboard receives the profile snapshot of a signed-in
    user, it shows the stored profile if there is one; if there is none it
    shows a new profile with 0 points, which is also stored when the
    backend accepts the write, and is shown although it is not stored when
    the backend refuses it. No other profile and no listing changes. *)
Theorem dashboard_shows_or_creates_the_profile (w : World) (uid today : string)
    (cu : Auth.User) (r_set : Firestore.reply) :
  App.userId (app w) = Some uid ->
  uid <> "" ->
  currentUser w = Some cu ->
  Dashboard.userProfile (dashboard (onUserSnapshot today r_set w))
  = Some (default (Firestore.mkUser (Auth.email cu) 0 today)
                  (Firestore.users (db w) !! uid))
  /\ Firestore.users (db (onUserSnapshot today r_set w)) !! uid
     = match Firestore.users (db w) !! uid, r_set with
       | Some p, _ => Some p
       | None, Firestore.Resolved => Some (Firestore.mkUser (Auth.email cu) 0 today)
       | None, Firestore.Rejected _ => None
       end
  /\ (forall other, other <> uid ->
        Firestore.users (db (onUserSnapshot today r_set w)) !! other
        = Firestore.users (db w) !! other)
  /\ Firestore.items (db (onUserSnapshot today r_set w)) = Firestore.items (db w).
Proof.
  intros Huser Hne Hcu. unfold onUserSnapshot, Firestore.getUser.
  rewrite Huser, (truthy_string_true uid Hne), Hcu. cbn [negb].
  destruct (Firestore.users (db w) !! uid) as [p|] eqn:Hp; simpl.
  - rewrite Hp. auto.
  - destruct r_set; simpl.
    + rewrite lookup_insert_eq. repeat split.
      intros other Hother. apply lookup_insert_ne. congruence.
    + rewrite Hp. auto.
Qed.

Lemma dashboard_shows_or_creates_the_profile_witness :
  Dashboard.userProfile
    (dashboard (onUserSnapshot Scenario.today Firestore.Resolved
                  (onAuthStateChanged (Some Scenario.U2) Scenario.today
                     Firestore.Resolved Firestore.Resolved
                     (Scenario.browser Scenario.store))))
  = Some (Firestore.mkUser (Some "u2@rewear.com") 150 Scenario.today).
Proof.
  destruct (dashboard_shows_or_creates_the_profile
              (onAuthStateChanged (Some Scenario.U2) Scenario.today
                 Firestore.Resolved Firestore.Resolved
                 (Scenario.browser Scenario.store))
              "U2" Scenario.today Scenario.U2 Firestore.Resolved)
    as (Hshown & _).
  - vm_compute. reflexivity.
  - discriminate.
  - reflexivity.
  - rewrite Hshown. vm_compute. reflexivity.
Defined.

(** ** What no run does to the listings *)

(** A step keeps the listings, or stores one document whose status is
    ['available'] or ['rejected']. *)
Lemma step_items e w :
  Firestore.items (db (step e w)) = Firestore.items (db w)
  \/ exists id d,
       Firestore.items (db (step e w)) = <[id := d]> (Firestore.items (db w))
       /\ (Firestore.status d = Some "available"
           \/ Firestore.status d = Some "rejected").
Proof.
  destruct e; cbn [step];
    try (left; solve [run_handler | unfold handleImageUpload, onUserSnapshot; run_handler]).
  - (* Submit *)
    unfold handleSubmit.
    destruct (App.userId (app w)) as [uid|];
      [destruct (Js.truthy_string uid); cbn [negb]; [destruct r as [|err]|]|];
      simpl; rewrite ?mount_db; simpl; auto.
    + right. eexists _, _. split; [reflexivity|]. left. reflexivity.
    + left. destruct (permission_denied err); reflexivity.
  - (* Moderate *)
    destruct r_set as [|err]; [|left; reflexivity].
    right. rewrite moderate_db. simpl. eexists _, _. split; [reflexivity|].
    simpl. unfold moderated_status. case_bool_decide; auto.
Qed.

(** X23. The only statuses the code ever writes are ['available'] and
    ['rejected']: if every stored listing has one of the two, so has every
    listing after any run. No run makes a listing ['pending_swap'],
    ['swapped'] or ['redeemed']. *)
Theorem only_available_or_rejected_is_written (es : list Event) (w : World) :
  statuses_written_by_code w -> statuses_written_by_code (run es w).
Proof.
  apply (run_invariant statuses_written_by_code).
  clear. intros e w Hw id d Hd.
  destruct (step_items e w) as [Hsame | (id' & d' & Hnew & Hstatus)].
  - rewrite Hsame in Hd. eauto.
  - rewrite Hnew in Hd. apply lookup_insert_Some in Hd as [[_ <-] | [_ Hd]]; eauto.
Qed.

Lemma only_available_or_rejected_is_written_witness :
  statuses_written_by_code
    (run [ClickRedeem Firestore.Resolved; ClickConfirmRedeem;
          Moderate "L1" "reject" Firestore.Resolved Firestore.Resolved]
         Scenario.rich_view)
  /\ listing_status "L1"
       (run [ClickRedeem Firestore.Resolved; ClickConfirmRedeem;
             Moderate "L1" "reject" Firestore.Resolved Firestore.Resolved]
            Scenario.rich_view) = Some "rejected".
Proof.
  split; [|vm_compute; reflexivity].
  apply (only_available_or_rejected_is_written
           [ClickRedeem Firestore.Resolved; ClickConfirmRedeem;
            Moderate "L1" "reject" Firestore.Resolved Firestore.Resolved]
           Scenario.rich_view).
  intros id d Hd.
  assert (Hstore : Firestore.items (db Scenario.rich_view)
                   = <["L1" := Scenario.L1]> ∅) by (vm_compute; reflexivity).
  rewrite Hstore in Hd.
  apply lookup_insert_Some in Hd as [[_ <-] | [_ Hd]]; [left; reflexivity|].
  rewrite lookup_empty in Hd. discriminate Hd.
Defined.

(** X24. No run deletes a listing: an id the store holds is still held
    after every run (only profiles are ever deleted). *)
Theorem listings_are_never_deleted (es : list Event) (w : World) (id : string) :
  is_Some (Firestore.items (db w) !! id) ->
  is_Some (Firestore.items (db (run es w)) !! id).
Proof.
  revert w. induction es as [|e es IH]; intros w Hw; simpl; [exact Hw|].
  apply IH.
  destruct (step_items e w) as [-> | (id' & d' & -> & _)]; [exact Hw|].
  rewrite lookup_insert_is_Some. destruct (decide (id' = id)); auto.
Qed.

Lemma listings_are_never_deleted_witness :
  is_Some
    (Firestore.items
       (db (run [Moderate "L1" "reject" Firestore.Resolved Firestore.Resolved;
                 DeleteUser "U1" Firestore.Resolved]
                (Scenario.browser Scenario.store))) !! "L1").
Proof.
  apply (listings_are_never_deleted
           [Moderate "L1" "reject" Firestore.Resolved Firestore.Resolved;
            DeleteUser "U1" Firestore.Resolved]
           (Scenario.browser Scenario.store) "L1").
  vm_compute. eexists. reflexivity.
Defined.

(** ** More of the item page, the admin list and the browse page *)

(** X25. The owner of the listing on the page cannot request a swap of
    it: the swap button is not offered, and [requestSwap] ends with "You
    cannot swap your own item." and leaves the store as it was. *)
Theorem owner_cannot_swap_own_listing (w : World) (uid id : string)
    (L : Firestore.ItemDoc) :
  App.userId (app w) = Some uid ->
  uid <> "" ->
  ItemDetail.item (detail w) = Some (id, L) ->
  Firestore.userId L = Some uid ->
  ItemDetail.showConfirmSwap (detail w) = false ->
  swap_button w = false
  /\ notice (requestSwap w) = Some (Notice.mk "You cannot swap your own item." "info")
  /\ db (requestSwap w) = db w.
Proof.
  intros Huser Hne Hitem Howner Hclosed. split; [|split; [|apply requestSwap_db]].
  - unfold swap_button, loaded_item, isOwner.
    destruct (ItemDetail.loading (detail w)); [reflexivity|].
    rewrite Hitem. simpl (snd <$> _). cbv beta iota.
    rewrite Huser, Howner, same_user_true. reflexivity.
  - unfold requestSwap, handleSwapRequest.
    rewrite Huser, Hitem. cbn [Js.truthy_ref].
    rewrite (truthy_string_true uid Hne). cbn [negb].
    rewrite Howner, same_user_true. simpl. rewrite Hclosed. reflexivity.
Qed.

Lemma owner_cannot_swap_own_listing_witness :
  swap_button Scenario.owner_view = false
  /\ notice (requestSwap Scenario.owner_view)
     = Some (Notice.mk "You cannot swap your own item." "info").
Proof.
  destruct (owner_cannot_swap_own_listing Scenario.owner_view "U1" "L1" Scenario.L1)
    as (Hbutton & Hnotice & _).
  - vm_compute. reflexivity.
  - discriminate.
  - vm_compute. reflexivity.
  - reflexivity.
  - vm_compute. reflexivity.
  - split; [exact Hbutton | exact Hnotice].
Defined.

(** X26. For a signed-in visitor who is not the owner, on a listing with
    a points value: when the visitor has no stored profile the answer is
    "Not enough points to redeem this item."; when the read of the profile
    is refused, [handleRedeemPoints] does nothing at all, not even a
    notice. *)
Theorem redeem_without_readable_profile (w : World) (uid id : string)
    (L : Firestore.ItemDoc) (e : Firestore.Error) :
  App.userId (app w) = Some uid ->
  uid <> "" ->
  ItemDetail.item (detail w) = Some (id, L) ->
  Firestore.userId L <> Some uid ->
  Js.truthy (Firestore.pointsValue L) = true ->
  (Firestore.users (db w) !! uid = None ->
   handleRedeemPoints Firestore.Resolved w
   = showMessageBox "Not enough points to redeem this item." "error" w)
  /\ handleRedeemPoints (Firestore.Rejected e) w = w.
Proof.
  intros Huser Hne Hitem Hother Hpv. split.
  - intros Hnone.
    rewrite (handleRedeemPoints_checked w uid id L Huser Hne Hitem Hother Hpv).
    unfold Firestore.getUser. rewrite Hnone. reflexivity.
  - unfold handleRedeemPoints.
    rewrite Huser, Hitem. cbn [Js.truthy_ref].
    rewrite (truthy_string_true uid Hne). cbn [negb].
    rewrite (same_user_false uid _ Hother), Hpv. reflexivity.
Qed.

Lemma redeem_without_readable_profile_witness :
  handleRedeemPoints
    (Firestore.Rejected (Firestore.mkError "unavailable" "The service is currently unavailable."))
    Scenario.rich_view
  = Scenario.rich_view.
Proof.
  destruct (redeem_without_readable_profile Scenario.rich_view "U2" "L1"
              Scenario.L1
              (Firestore.mkError "unavailable" "The service is currently unavailable."))
    as [_ Hsilent].
  - vm_compute. reflexivity.
  - discriminate.
  - vm_compute. reflexivity.
  - discriminate.
  - reflexivity.
  - exact Hsilent.
Defined.

Lemma step_admin_listings e w :
  match e with Moderate _ _ _ _ => False | _ => True end ->
  Admin.listings (admin (step e w)) = Admin.listings (admin w)
  \/ Admin.listings (admin (step e w)) = [].
Proof.
  destruct e; cbn [step]; intros Hother; try contradiction;
    try solve [run_handler
              | unfold handleImageUpload, onUserSnapshot, handleRemoveImage; run_handler].
  unfold handleSubmit, handleNavigate, mount. repeat case_match; simpl; auto.
Qed.

(** X27. The admin panel never reads the listings by itself: its effect
    fetches the users only, and the list of listings is filled by a
    moderation alone. From an empty list, every run without a moderation
    leaves it empty, so the listings tab has no row to moderate. *)
Theorem admin_listings_stay_empty_without_moderation (es : list Event) (w : World) :
  Admin.listings (admin w) = [] ->
  Forall (fun e => match e with Moderate _ _ _ _ => False | _ => True end) es ->
  Admin.listings (admin (run es w)) = [].
Proof.
  revert w. induction es as [|e es IH]; intros w Hw Hes; simpl; [exact Hw|].
  apply Forall_cons in Hes as [He Hes]. apply IH; [|exact Hes].
  destruct (step_admin_listings e w He) as [-> | ->]; [exact Hw | reflexivity].
Qed.

Lemma admin_listings_stay_empty_without_moderation_witness :
  Admin.listings
    (admin (run [AuthStateChanged (Some (Auth.mkUser "admin-1" None)) Scenario.today
                   Firestore.Resolved Firestore.Resolved;
                 Navigate "admin" None;
                 FetchData Firestore.Resolved;
                 SelectTab "listings"]
                (Scenario.browser Scenario.store))) = [].
Proof.
  apply (admin_listings_stay_empty_without_moderation
           [AuthStateChanged (Some (Auth.mkUser "admin-1" None)) Scenario.today
              Firestore.Resolved Firestore.Resolved;
            Navigate "admin" None;
            FetchData Firestore.Resolved;
            SelectTab "listings"]
           (Scenario.browser Scenario.store)).
  - reflexivity.
  - repeat constructor.
Defined.

(** X28. When its live query answers, the browse page shows each
    available listing of the store once and no other listing, with the
    spinner off; when the query fails the list is kept, the spinner is
    switched off, an error is shown and the store is untouched. *)
Theorem browse_page_lists_each_available_listing_once (d : Firestore.Db)
    (s : Browse.State) (w : World) (e : Firestore.Error) :
  (Browse.loading (onItemsSnapshot d s) = false
   /\ NoDup (fst <$> Browse.items (onItemsSnapshot d s))
   /\ forall id x,
        (id, x) ∈ Browse.items (onItemsSnapshot d s)
        <-> Firestore.items d !! id = Some x
            /\ Firestore.status x = Some "available")
  /\ (fst (onItemsError e s w) = Browse.mk (Browse.items s) false
      /\ db (snd (onItemsError e s w)) = db w
      /\ succeeded (snd (onItemsError e s w)) = false).
Proof.
  split; [split; [reflexivity | split]|].
  - simpl. unfold whereStatusAvailable, Firestore.allItems.
    apply (sublist_NoDup _ (fst <$> map_to_list (Firestore.items d)));
      [apply NoDup_fst_map_to_list | apply fmap_sublist, sublist_filter].
  - intros id x. apply whereStatusAvailable_elem.
  - unfold onItemsError. destruct (permission_denied e); simpl; auto.
Qed.
